(** * Rollup block manager: header checks and the manager's loops

    A shallow embedding of [types.Header] (Verify, Validate, ValidateBasic)
    and of [block.Manager] (AggregationLoop, SyncLoop, mustRetrieveBlock,
    fetchBlock, publishBlock, broadcastBlock), with the properties of the
    specification stated over them.

    Conventions.
    - [uint64] values are integers in [Z]; every Go addition on them is
      written with its wrap-around [wrap64].
    - Byte slices and byte arrays are [list Byte.byte]; [bytes.Equal] is
      [bytes_Equal].
    - The collaborators the manager holds through interfaces (store,
      executor, DA client, proposer key) are type classes over the type of
      the collaborator's own state; every call returns the collaborator's
      next state.
    - Manager methods live in a state monad over [Manager] that also
      records the calls made, the channel sends and the log lines, in
      program order. *)

From Stdlib Require Import ZArith List String Lia Bool.
From Stdlib Require Import Init.Byte.
From stdpp Require Import base decidable option gmap.

Local Open Scope string_scope.
Local Open Scope list_scope.
Local Open Scope Z_scope.

(** ** Machine integers and byte strings *)

Definition uint64_modulus : Z := 2 ^ 64.

(** Go's [uint64] arithmetic keeps the low 64 bits. *)
Definition wrap64 (z : Z) : Z := z mod uint64_modulus.

(** Go's conversion [int64(x)] of a 64-bit pattern: two's complement. *)
Definition int64_modulus_half : Z := 2 ^ 63.

Definition toInt64 (z : Z) : Z :=
  (z + int64_modulus_half) mod uint64_modulus - int64_modulus_half.

Definition bytes : Type := list Byte.byte.

(** [bytes.Equal]: same length and same contents; nil and empty agree. *)
Fixpoint bytes_Equal (a b : bytes) : bool :=
  match a, b with
  | [], [] => true
  | x :: a', y :: b' => Byte.eqb x y && bytes_Equal a' b'
  | _, _ => false
  end.

(** [[32]byte{}]: the zero value of a 32-byte array. *)
Definition zero32 : bytes := repeat Byte.x00 32.

(** ** Errors

    Go's [error] values that the embedded code builds or inspects. *)

Inductive error : Type :=
| ErrNoProposerAddress
| ErrorString (msg : string)
| Errorf (format : string) (args : list fmtarg)
| VerifyError (Reason : error)
with fmtarg : Type :=
| ArgS (s : string)
| ArgX (b : bytes)
| ArgW (e : error).

Module types.

Module BaseHeader.
Record t : Type := mk {
  Height : Z;
  Time : Z;
  ChainID : string
}.
End BaseHeader.

Module Version.
Record t : Type := mk { Block : Z; App : Z }.
End Version.

Module Header.

Record t : Type := mk {
  BaseHeader : BaseHeader.t;
  Version : Version.t;
  LastHeaderHash : bytes;
  LastCommitHash : bytes;
  DataHash : bytes;
  ConsensusHash : bytes;
  AppHash : bytes;
  LastResultsHash : bytes;
  ProposerAddress : bytes;
  AggregatorsHash : bytes;
  NextAggregatorsHash : bytes
}.

Definition ChainID (h : t) : string := BaseHeader.ChainID (BaseHeader h).

Definition Height (h : t) : Z := BaseHeader.Height (BaseHeader h).

Definition LastHeader (h : t) : bytes := LastHeaderHash h.

(** [Verify]: [None] is Go's nil error. *)
Definition Verify (h untrstH : t) : option error :=
  if Height untrstH =? wrap64 (Height h + 1) then
    if negb (bytes_Equal (AggregatorsHash untrstH) (NextAggregatorsHash h)) then
      Some (VerifyError
              (Errorf "expected old header validators (%X) to match those from new header (%X)"
                      [ArgX (NextAggregatorsHash h); ArgX (AggregatorsHash untrstH)]))
    else None
  else None.

Definition ValidateBasic (h : t) : option error :=
  if (Z.of_nat (length (ProposerAddress h)) =? 0) then Some ErrNoProposerAddress
  else None.

Definition Validate (h : t) : option error := ValidateBasic h.

(** [Time]: [time.Unix(0, int64(h.BaseHeader.Time))], as the nanoseconds
    since the epoch it stands for. *)
Definition Time (h : t) : Z := toInt64 (BaseHeader.Time (BaseHeader h)).

End Header.

(** Modelled from the spec: [types.Commit], [types.Data] and [types.Block]
    are declared elsewhere in the package; the fields are those the
    manager reads and writes ([Commit{Height, HeaderHash, Signatures}],
    [block.Header], [block.Data.Txs], [block.LastCommit]). *)
Module Commit.
Record t : Type := mk {
  Height : Z;
  HeaderHash : bytes;
  Signatures : list bytes
}.
End Commit.

Module Data.
Record t : Type := mk {
  Txs : list bytes;
  IntermediateStateRoots : list bytes
}.
End Data.

Module Block.
Record t : Type := mk {
  Header : Header.t;
  Data : Data.t;
  LastCommit : Commit.t
}.
End Block.

End types.

Import types.

(** Modelled from the spec: [state.State], the applied-state snapshot of
    section 3 (validator sets and consensus parameters kept as opaque
    bytes). The manager only passes it between executor and store. *)
Module State.
Record t : Type := mk {
  ChainID : string;
  InitialHeight : Z;
  LastBlockHeight : Z;
  LastBlockHash : bytes;
  LastResultsHash : bytes;
  AppHash : bytes;
  Validators : bytes;
  NextValidators : bytes;
  ConsensusParams : bytes
}.
End State.

(** ** Collaborator interfaces *)

(** Modelled from the spec: the DA result codes and result records of
    sections 4.3 and 6 (code set Success, Error, Timeout; a message; for
    retrieval an optional block). *)
Module da.

Inductive StatusCode : Type := StatusSuccess | StatusError | StatusTimeout.

Record ResultSubmitBlock : Type := mkSubmit {
  SubmitCode : StatusCode;
  SubmitMessage : string
}.

Record ResultRetrieveBlock : Type := mkRetrieve {
  Code : StatusCode;
  Message : string;
  Block : option Block.t
}.

(** [da.DataAvailabilityLayerClient] *)
Class DataAvailabilityLayerClient (D : Type) : Type := {
  SubmitBlock : D -> Block.t -> ResultSubmitBlock * D
}.

(** [da.BlockRetriever] *)
Class BlockRetriever (D : Type) : Type := {
  RetrieveBlock : D -> Z -> ResultRetrieveBlock * D
}.

End da.

(** [store.Store]: the methods the manager calls. [Height] returns a
    [uint64]. A Go [(value, error)] result is a sum, an [error] result an
    option; a writing call also returns the store it leaves behind. *)
Module store.

Class Store (S : Type) : Type := {
  Height : S -> Z;
  Height_uint64 : forall s, 0 <= Height s < uint64_modulus;
  SaveBlock : S -> Block.t -> Commit.t -> option error * S;
  LoadCommit : S -> Z -> Commit.t + error;
  UpdateState : S -> State.t -> option error * S
}.

End store.

(** [state.BlockExecutor]: [CreateBlock] and [ApplyBlock]; the executor's
    own state (mempool, application connection) is threaded through. *)
Module state.

Class BlockExecutor (E : Type) : Type := {
  CreateBlock : E -> Z -> Commit.t -> State.t -> Block.t * E;
  ApplyBlock : E -> State.t -> Block.t -> (State.t + error) * E
}.

End state.

(** [crypto.PrivKey.Sign] *)
Module crypto.

Class PrivKey (K : Type) : Type := {
  Sign : K -> bytes -> bytes + error
}.

End crypto.

(** [Header.MarshalBinary] and [Header.Hash] are defined elsewhere in the
    package; the manager is embedded over any implementation of them. *)
Class HeaderCodec : Type := {
  MarshalBinary : Header.t -> bytes + error;
  Hash : Header.t -> bytes
}.

(** [config.BlockManagerConfig]: the fields [NewManager] and the loops read.
    Modelled from the spec: [MaxRetrieveRetries] and [RetrieveRetryPause]
    are the two retrieval settings of section 6. *)
Module config.
Record BlockManagerConfig : Type := mk {
  BlockTime : Z;
  NamespaceID : bytes;
  MaxRetrieveRetries : Z;
  RetrieveRetryPause : Z
}.
End config.

(** [tmtypes.GenesisDoc]: only [InitialHeight] (an [int64]) is read. *)
Module tmtypes.
Record GenesisDoc : Type := mk {
  ChainID : string;
  InitialHeight : Z
}.
End tmtypes.

(** What [NewManager] needs besides the calls above: [Store.LoadState],
    [state.NewFromGenesisDoc], [state.NewBlockExecutor] and
    [PrivKey.GetPublic().Raw()]. They are defined in other packages; the
    constructor is embedded over any implementation of them. [Mp] and [Px]
    are the mempool and the application connection handed to the
    executor. *)
Module wiring.

Class StateLoader (S : Type) : Type := {
  LoadState : S -> State.t + error
}.

Class GenesisState : Type := {
  NewFromGenesisDoc : tmtypes.GenesisDoc -> State.t + error
}.

Class ExecutorFactory (E Mp Px : Type) : Type := {
  NewBlockExecutor : bytes -> bytes -> Mp -> Px -> E
}.

Class PublicKey (K : Type) : Type := {
  GetPublicRaw : K -> bytes + error
}.

(** A value of the interface type [da.DataAvailabilityLayerClient] as a
    caller hands it to the manager: nil, a client whose dynamic type [D]
    also implements [da.BlockRetriever], or a client whose dynamic type
    [D'] does not. *)
Inductive Client (D D' : Type) `{!da.DataAvailabilityLayerClient D}
    `{!da.BlockRetriever D} `{!da.DataAvailabilityLayerClient D'} : Type :=
| NilClient
| RetrievingClient (d : D)
| SubmittingClient (d : D').
Arguments NilClient {D D' _ _ _}.
Arguments RetrievingClient {D D' _ _ _} d.
Arguments SubmittingClient {D D' _ _ _} d.

(** The type assertion [dalc.(da.BlockRetriever)]: the client seen as a
    retriever, or [None] where the assertion panics. *)
Definition asBlockRetriever {D D' : Type} `{!da.DataAvailabilityLayerClient D}
    `{!da.BlockRetriever D} `{!da.DataAvailabilityLayerClient D'}
    (dalc : Client D D') : option D :=
  match dalc with
  | RetrievingClient d => Some d
  | NilClient | SubmittingClient _ => None
  end.

End wiring.

(** [time.Duration] counts nanoseconds. *)
Definition Millisecond : Z := 1000000.

(** ** The manager *)

Module block.

(** What a manager method does to the outside, in program order: calls on
    the collaborators, channel sends, sleeps, timer resets and log lines. *)
Inductive Event : Type :=
| EvLog (level msg : string)
| EvLoadCommit (height : Z)
| EvCreateBlock (height : Z) (lastCommit : Commit.t) (s : State.t)
| EvApplyBlock (s : State.t) (b : Block.t)
| EvSign (msg : bytes)
| EvSaveBlock (b : Block.t) (c : Commit.t)
| EvUpdateState (s : State.t)
| EvSubmitBlock (b : Block.t)
| EvRetrieveBlock (height : Z)
| EvSleep (d : Z)
| EvTimerReset (d : Z)
| EvSend_HeaderOutCh (h : Header.t)
| EvSend_blockInCh (b : option Block.t)
| EvSend_retrieveCh (height : Z).

(** How a call ends: a normal return, a returned [error], or a panic. *)
Inductive Res (A : Type) : Type :=
| Ret (a : A)
| Fail (e : error)
| Panicked (msg : string).
Arguments Ret {A} a.
Arguments Fail {A} e.
Arguments Panicked {A} msg.

(** How a loop stands once the scheduled receptions are used up. *)
Inductive LoopStatus : Type := Returned | Waiting.

(** What [select] picks in [AggregationLoop]; [elapsed] is what
    [time.Since(start)] reads in [getRemainingSleep]. *)
Inductive AggSelect : Type :=
| AggCtxDone
| AggTimer (elapsed : Z).

(** What [select] picks in [SyncLoop]. *)
Inductive SyncSelect : Type :=
| SyncHeaderIn (header : Header.t)
| SyncBlockIn (b : Block.t)
| SyncCtxDone.

Section Manager.

Variables S E D K : Type.
Context `{!store.Store S} `{!state.BlockExecutor E}
        `{!da.DataAvailabilityLayerClient D} `{!da.BlockRetriever D}
        `{!crypto.PrivKey K} `{!HeaderCodec}.

(** The struct. [dalc] and [retriever] are one object seen through two
    interfaces ([retriever: dalc.(da.BlockRetriever)]), hence one field.
    The channels appear as send events and as the schedule of receptions. *)
Record Manager : Type := mkManager {
  lastState : State.t;
  conf : config.BlockManagerConfig;
  genesis : tmtypes.GenesisDoc;
  proposerKey : K;
  store : S;
  executor : E;
  dalc : D;
  syncTarget : Z;
  syncCache : gmap Z Block.t
}.

Definition set_lastState (s : State.t) (m : Manager) : Manager :=
  mkManager s (conf m) (genesis m) (proposerKey m) (store m) (executor m)
            (dalc m) (syncTarget m) (syncCache m).

Definition set_store (st : S) (m : Manager) : Manager :=
  mkManager (lastState m) (conf m) (genesis m) (proposerKey m) st (executor m)
            (dalc m) (syncTarget m) (syncCache m).

Definition set_executor (e : E) (m : Manager) : Manager :=
  mkManager (lastState m) (conf m) (genesis m) (proposerKey m) (store m) e
            (dalc m) (syncTarget m) (syncCache m).

Definition set_dalc (d : D) (m : Manager) : Manager :=
  mkManager (lastState m) (conf m) (genesis m) (proposerKey m) (store m)
            (executor m) d (syncTarget m) (syncCache m).

Definition set_syncTarget (t : Z) (m : Manager) : Manager :=
  mkManager (lastState m) (conf m) (genesis m) (proposerKey m) (store m)
            (executor m) (dalc m) t (syncCache m).

Definition set_syncCache (c : gmap Z Block.t) (m : Manager) : Manager :=
  mkManager (lastState m) (conf m) (genesis m) (proposerKey m) (store m)
            (executor m) (dalc m) (syncTarget m) c.

(** *** The monad of manager methods *)

Definition M (A : Type) : Type := Manager -> Res A * Manager * list Event.

Definition ret {A} (a : A) : M A := fun m => (Ret a, m, []).

Definition bind {A B} (c : M A) (k : A -> M B) : M B :=
  fun m =>
    match c m with
    | (Ret a, m1, t1) => let '(r, m2, t2) := k a m1 in (r, m2, t1 ++ t2)
    | (Fail e, m1, t1) => (Fail e, m1, t1)
    | (Panicked msg, m1, t1) => (Panicked msg, m1, t1)
    end.

Definition fail {A} (e : error) : M A := fun m => (Fail e, m, []).
Definition panic {A} (msg : string) : M A := fun m => (Panicked msg, m, []).
Definition get : M Manager := fun m => (Ret m, m, []).
Definition modify (f : Manager -> Manager) : M unit := fun m => (Ret tt, f m, []).
Definition emit (ev : Event) : M unit := fun m => (Ret tt, m, [ev]).

(** [err := f()]: a returned error becomes a value of the caller. *)
Definition catch {A} (c : M A) : M (option error) :=
  fun m =>
    match c m with
    | (Ret _, m1, t1) => (Ret None, m1, t1)
    | (Fail e, m1, t1) => (Ret (Some e), m1, t1)
    | (Panicked msg, m1, t1) => (Panicked msg, m1, t1)
    end.

Notation "x <- c ;; k" := (bind c (fun x => k))
  (at level 100, c at next level, right associativity).
Notation "c ;;; k" := (bind c (fun _ => k))
  (at level 100, right associativity).

(** *** Calls on the collaborators *)

Definition call_LoadCommit (height : Z) : M (Commit.t + error) :=
  fun m => (Ret (store.LoadCommit (store m) height), m, [EvLoadCommit height]).

Definition call_CreateBlock (height : Z) (lastCommit : Commit.t) (s : State.t)
  : M Block.t :=
  fun m =>
    let '(b, e) := state.CreateBlock (executor m) height lastCommit s in
    (Ret b, set_executor e m, [EvCreateBlock height lastCommit s]).

Definition call_ApplyBlock (s : State.t) (b : Block.t) : M (State.t + error) :=
  fun m =>
    let '(r, e) := state.ApplyBlock (executor m) s b in
    (Ret r, set_executor e m, [EvApplyBlock s b]).

Definition call_Sign (msg : bytes) : M (bytes + error) :=
  fun m => (Ret (crypto.Sign (proposerKey m) msg), m, [EvSign msg]).

Definition call_SaveBlock (b : Block.t) (c : Commit.t) : M (option error) :=
  fun m =>
    let '(r, st) := store.SaveBlock (store m) b c in
    (Ret r, set_store st m, [EvSaveBlock b c]).

Definition call_UpdateState (s : State.t) : M (option error) :=
  fun m =>
    let '(r, st) := store.UpdateState (store m) s in
    (Ret r, set_store st m, [EvUpdateState s]).

Definition call_SubmitBlock (b : Block.t) : M da.ResultSubmitBlock :=
  fun m =>
    let '(r, d) := da.SubmitBlock (dalc m) b in
    (Ret r, set_dalc d m, [EvSubmitBlock b]).

Definition call_RetrieveBlock (height : Z) : M da.ResultRetrieveBlock :=
  fun m =>
    let '(r, d) := da.RetrieveBlock (dalc m) height in
    (Ret r, set_dalc d m, [EvRetrieveBlock height]).

(** *** Aggregation *)

Definition broadcastBlock (b : Block.t) : M unit :=
  res <- call_SubmitBlock b ;;
  match da.SubmitCode res with
  | da.StatusSuccess => emit (EvSend_HeaderOutCh (Block.Header b))
  | _ => fail (Errorf "DA layer submission failed: %s" [ArgS (da.SubmitMessage res)])
  end.

(** The first statements of [publishBlock]: the height to produce and the
    commit of the block before it. *)
Definition newHeightOf (m : Manager) : Z := wrap64 (store.Height (store m) + 1).

Definition genesisCommit (m : Manager) : Commit.t :=
  Commit.mk (store.Height (store m)) zero32 [].

Definition loadLastCommit : M Commit.t :=
  m <- get ;;
  if newHeightOf m =? wrap64 (tmtypes.InitialHeight (genesis m)) then
    ret (genesisCommit m)
  else
    r <- call_LoadCommit (store.Height (store m)) ;;
    match r with
    | inl c => ret c
    | inr err => fail (Errorf "error while loading last commit: %w" [ArgW err])
    end.

Definition publishBlock : M unit :=
  m0 <- get ;;
  let newHeight := newHeightOf m0 in
  lastCommit <- loadLastCommit ;;
  emit (EvLog "info" "Creating and publishing block") ;;;
  m1 <- get ;;
  b <- call_CreateBlock newHeight lastCommit (lastState m1) ;;
  emit (EvLog "debug" "block info") ;;;
  m2 <- get ;;
  applied <- call_ApplyBlock (lastState m2) b ;;
  match applied with
  | inr err => fail err
  | inl newState =>
    match MarshalBinary (Block.Header b) with
    | inr err => fail err
    | inl headerBytes =>
      signed <- call_Sign headerBytes ;;
      match signed with
      | inr err => fail err
      | inl sign =>
        let commit :=
          Commit.mk (Header.Height (Block.Header b)) (Hash (Block.Header b)) [sign] in
        saved <- call_SaveBlock b commit ;;
        match saved with
        | Some err => fail err
        | None =>
          modify (set_lastState newState) ;;;
          m3 <- get ;;
          updated <- call_UpdateState (lastState m3) ;;
          match updated with
          | Some err => fail err
          | None => broadcastBlock b
          end
        end
      end
    end
  end.

Definition getRemainingSleep (elapsed : Z) : M Z :=
  m <- get ;;
  let sleepDuration := config.BlockTime (conf m) - elapsed in
  ret (if sleepDuration <? 0 then 0 else sleepDuration).

(** The body of [case <-timer.C]. *)
Definition aggregationTick (elapsed : Z) : M unit :=
  err <- catch publishBlock ;;
  match err with
  | Some _ => emit (EvLog "error" "error while publishing block")
  | None => ret tt
  end ;;;
  d <- getRemainingSleep elapsed ;;
  emit (EvTimerReset d).

Fixpoint aggregationSelect (sched : list AggSelect) : M LoopStatus :=
  match sched with
  | [] => ret Waiting
  | AggCtxDone :: _ => ret Returned
  | AggTimer elapsed :: rest => aggregationTick elapsed ;;; aggregationSelect rest
  end.

(** [time.NewTimer] arms the timer for [BlockTime], as a reset does. *)
Definition AggregationLoop (sched : list AggSelect) : M LoopStatus :=
  m <- get ;;
  emit (EvTimerReset (config.BlockTime (conf m))) ;;;
  aggregationSelect sched.

(** *** Synchronisation *)

(** The body of [case header := <-m.HeaderInCh]. *)
Definition syncHeaderIn (header : Header.t) : M unit :=
  emit (EvLog "debug" "block header received") ;;;
  m <- get ;;
  let newHeight := Header.Height header in
  let currentHeight := store.Height (store m) in
  if currentHeight <? newHeight then
    modify (set_syncTarget newHeight) ;;;
    emit (EvSend_retrieveCh newHeight)
  else ret tt.

(** The body of [case block := <-m.blockInCh]; each [continue] ends it. *)
Definition syncBlockIn (b : Block.t) : M unit :=
  emit (EvLog "debug" "block body retrieved from DALC") ;;;
  modify (fun m => set_syncCache (<[Header.Height (Block.Header b) := b]> (syncCache m)) m) ;;;
  m <- get ;;
  let currentHeight := store.Height (store m) in
  match syncCache m !! wrap64 (currentHeight + 1),
        syncCache m !! wrap64 (currentHeight + 2) with
  | Some b1, Some b2 =>
    applied <- call_ApplyBlock (lastState m) b1 ;;
    match applied with
    | inr _ => emit (EvLog "error" "failed to ApplyBlock")
    | inl newState =>
      saved <- call_SaveBlock b1 (Block.LastCommit b2) ;;
      match saved with
      | Some _ => emit (EvLog "error" "failed to save block")
      | None =>
        modify (set_lastState newState) ;;;
        m' <- get ;;
        updated <- call_UpdateState (lastState m') ;;
        match updated with
        | Some _ => emit (EvLog "error" "failed to save updated state")
        | None =>
          modify (fun m => set_syncCache (delete (wrap64 (currentHeight + 1)) (syncCache m)) m)
        end
      end
    end
  | _, _ => ret tt
  end.

Fixpoint SyncLoop (sched : list SyncSelect) : M LoopStatus :=
  match sched with
  | [] => ret Waiting
  | SyncHeaderIn header :: rest => syncHeaderIn header ;;; SyncLoop rest
  | SyncBlockIn b :: rest => syncBlockIn b ;;; SyncLoop rest
  | SyncCtxDone :: _ => ret Returned
  end.

(** *** Retrieval *)

(** [fetchBlock] returns the [error] it built, nil for any other code. *)
Definition fetchBlock (height : Z) : M (option error) :=
  blockRes <- call_RetrieveBlock height ;;
  match da.Code blockRes with
  | da.StatusSuccess =>
    emit (EvSend_blockInCh (da.Block blockRes)) ;;; ret None
  | da.StatusError =>
    ret (Some (Errorf "failed to retrieve block: %s" [ArgS (da.Message blockRes)]))
  | da.StatusTimeout =>
    ret (Some (Errorf "timeout during retrieve block: %s" [ArgS (da.Message blockRes)]))
  end.

(** [for r := 0; r < maxRetries; r++], by the number of rounds left. *)
Fixpoint retrieveRounds (left : nat) (height : Z) : M unit :=
  match left with
  | O => panic "failed to retrieve block with DALC"
  | Datatypes.S left' =>
    err <- fetchBlock height ;;
    match err with
    | None => ret tt
    | Some _ => emit (EvSleep (100 * Millisecond)) ;;; retrieveRounds left' height
    end
  end.

Definition maxRetries : Z := 10.

Definition mustRetrieveBlock (height : Z) : M unit :=
  retrieveRounds (Z.to_nat maxRetries) height.

End Manager.

Arguments Manager S E D K : clear implicits.
Arguments mkManager {S E D K}.
Arguments lastState {S E D K}.
Arguments conf {S E D K}.
Arguments genesis {S E D K}.
Arguments proposerKey {S E D K}.
Arguments store {S E D K}.
Arguments executor {S E D K}.
Arguments dalc {S E D K}.
Arguments syncTarget {S E D K}.
Arguments syncCache {S E D K}.
Arguments set_lastState {S E D K}.
Arguments set_store {S E D K}.
Arguments set_executor {S E D K}.
Arguments set_dalc {S E D K}.
Arguments set_syncTarget {S E D K}.
Arguments set_syncCache {S E D K}.
Arguments newHeightOf {S E D K _}.
Arguments genesisCommit {S E D K _}.
Arguments loadLastCommit {S E D K _}.
Arguments broadcastBlock {S E D K _}.
Arguments publishBlock {S E D K _ _ _ _ _}.
Arguments getRemainingSleep {S E D K}.
Arguments aggregationTick {S E D K _ _ _ _ _}.
Arguments aggregationSelect {S E D K _ _ _ _ _}.
Arguments AggregationLoop {S E D K _ _ _ _ _}.
Arguments syncHeaderIn {S E D K _}.
Arguments syncBlockIn {S E D K _ _}.
Arguments SyncLoop {S E D K _ _}.
Arguments fetchBlock {S E D K _}.
Arguments retrieveRounds {S E D K _}.
Arguments mustRetrieveBlock {S E D K _}.

(** Reading a trace. *)
Definition isRetrieveBlock (ev : Event) : bool :=
  match ev with EvRetrieveBlock _ => true | _ => false end.

Definition isSaveBlock (ev : Event) : bool :=
  match ev with EvSaveBlock _ _ => true | _ => false end.

Definition isLoadCommit (ev : Event) : bool :=
  match ev with EvLoadCommit _ => true | _ => false end.

Definition count (p : Event -> bool) (tr : list Event) : nat :=
  length (List.filter p tr).

(** The manager once [b] is in the staging cache. *)
Definition stage {S E D K} (b : Block.t) (m : Manager S E D K) : Manager S E D K :=
  set_syncCache (<[Header.Height (Block.Header b) := b]> (syncCache m)) m.

(** The DA client after [n] calls of [RetrieveBlock] for [height], and its
    answer to the call after those. *)
Fixpoint daAfter {D} `{!da.BlockRetriever D} (d : D) (height : Z) (n : nat) : D :=
  match n with
  | O => d
  | Datatypes.S n' => daAfter (snd (da.RetrieveBlock d height)) height n'
  end.

Definition answer {D} `{!da.BlockRetriever D} (d : D) (height : Z) (n : nat)
    : da.ResultRetrieveBlock :=
  fst (da.RetrieveBlock (daAfter d height n) height).

(** The trace of [k] failed rounds of [mustRetrieveBlock]. *)
Definition failedRounds (height : Z) (k : nat) : list Event :=
  concat (repeat [EvRetrieveBlock height; EvSleep (100 * Millisecond)] k).

(** The commit [publishBlock] builds for the block it produced. *)
Definition commitOf `{!HeaderCodec} (b : Block.t) (sign : bytes) : Commit.t :=
  Commit.mk (Header.Height (Block.Header b)) (Hash (Block.Header b)) [sign].

(** What [getRemainingSleep] returns. *)
Definition remainingSleep (blockTime elapsed : Z) : Z :=
  if blockTime - elapsed <? 0 then 0 else blockTime - elapsed.

(** [SyncLoop]'s condition [ok1 && ok2] at a manager: the cache holds the
    blocks at the two heights after the store's. *)
Definition pairStaged {S E D K} `{!store.Store S} (m : Manager S E D K) : bool :=
  match syncCache m !! wrap64 (store.Height (store m) + 1),
        syncCache m !! wrap64 (store.Height (store m) + 2) with
  | Some _, Some _ => true
  | _, _ => false
  end.

(** What [select] picks in [RetrieveLoop]; the value received from
    [retrieveCh] is dropped by the loop. *)
Inductive RetrieveSelect : Type :=
| RetrieveSignal (sent : Z)
| RetrieveCtxDone.

(** How the [for] loop of [RetrieveLoop] stands when the rounds granted to
    it are used up: past its last height, or still running. *)
Inductive ForStatus : Type := ForDone | ForRunning.

Section Lifecycle.

Variables S E D D' K Mp Px : Type.
Context `{!store.Store S} `{!da.DataAvailabilityLayerClient D}
        `{!da.BlockRetriever D} `{!da.DataAvailabilityLayerClient D'}
        `{!wiring.StateLoader S} `{!wiring.GenesisState}
        `{!wiring.ExecutorFactory E Mp Px} `{!wiring.PublicKey K}.

Local Notation "x <- c ;; k" := (bind S E D K c (fun x => k))
  (at level 100, c at next level, right associativity).
Local Notation "c ;;; k" := (bind S E D K c (fun _ => k))
  (at level 100, right associativity).

(** [for h := ...; h <= target; h++]: the rounds from [h] on, at most
    [fuel] of them. [h++] is a [uint64] increment. *)
Fixpoint retrieveUpTo (fuel : nat) (h target : Z) : M S E D K ForStatus :=
  match fuel with
  | O => ret S E D K ForRunning
  | Datatypes.S fuel' =>
    if h <=? target then
      emit S E D K (EvLog "debug" "trying to retrieve block from DALC") ;;;
      mustRetrieveBlock h ;;;
      retrieveUpTo fuel' (wrap64 (h + 1)) target
    else ret S E D K ForDone
  end.

(** The body of [case <-m.retrieveCh]: the target is read once, the first
    height is the one after the store's. *)
Definition retrieveSignal (fuel : nat) : M S E D K ForStatus :=
  m <- get S E D K ;;
  let target := syncTarget m in
  retrieveUpTo fuel (wrap64 (store.Height (store m) + 1)) target.

(** [RetrieveLoop] over the receptions scheduled, each [for] loop granted
    [fuel] rounds; [None] when a [for] loop is still running after them. *)
Fixpoint RetrieveLoop (fuel : nat) (sched : list RetrieveSelect)
    : M S E D K (option LoopStatus) :=
  match sched with
  | [] => ret S E D K (Some Waiting)
  | RetrieveCtxDone :: _ => ret S E D K (Some Returned)
  | RetrieveSignal _ :: rest =>
    st <- retrieveSignal fuel ;;
    match st with
    | ForDone => RetrieveLoop fuel rest
    | ForRunning => ret S E D K None
    end
  end.

(** [getInitialState]: the stored state, or the genesis state when the
    store returns an error. *)
Definition getInitialState (st : S) (genesis : tmtypes.GenesisDoc)
    : State.t + error :=
  match wiring.LoadState st with
  | inl s => inl s
  | inr _ => wiring.NewFromGenesisDoc genesis
  end.

(** [NewManager]. The struct literal is built after both errors are
    ruled out; its type assertion [dalc.(da.BlockRetriever)] panics for a
    client that is no retriever (the runtime's message also names the
    client's type). The channels and the logger have no field. *)
Definition NewManager (proposerKey : K) (conf : config.BlockManagerConfig)
    (genesis : tmtypes.GenesisDoc) (st : S) (mempool : Mp) (proxyApp : Px)
    (dalc : wiring.Client D D') : Res (Manager S E D K) :=
  match getInitialState st genesis with
  | inr err => Fail err
  | inl s =>
    match wiring.GetPublicRaw proposerKey with
    | inr err => Fail err
    | inl proposerAddress =>
      let exec :=
        wiring.NewBlockExecutor proposerAddress (config.NamespaceID conf)
                                mempool proxyApp in
      match wiring.asBlockRetriever dalc with
      | None => Panicked "interface conversion: not da.BlockRetriever"
      | Some retriever =>
        Ret (mkManager s conf genesis proposerKey st exec retriever 0 ∅)
      end
    end
  end.

End Lifecycle.

Arguments retrieveUpTo {S E D K _}.
Arguments retrieveSignal {S E D K _ _}.
Arguments RetrieveLoop {S E D K _ _}.
Arguments getInitialState {S _ _}.
Arguments NewManager {S E D D' K Mp Px _ _ _ _ _ _ _}.

(** More readers of a trace. *)
Definition isSend_blockInCh (ev : Event) : bool :=
  match ev with EvSend_blockInCh _ => true | _ => false end.

Definition isSend_HeaderOutCh (ev : Event) : bool :=
  match ev with EvSend_HeaderOutCh _ => true | _ => false end.

Definition isSubmitBlock (ev : Event) : bool :=
  match ev with EvSubmitBlock _ => true | _ => false end.

Definition isUpdateState (ev : Event) : bool :=
  match ev with EvUpdateState _ => true | _ => false end.

Definition isTimerReset (ev : Event) : bool :=
  match ev with EvTimerReset _ => true | _ => false end.

Definition isAggCtxDone (x : AggSelect) : bool :=
  match x with AggCtxDone => true | AggTimer _ => false end.

Definition isSyncCtxDone (x : SyncSelect) : bool :=
  match x with SyncCtxDone => true | _ => false end.

Definition isSyncBlockIn (x : SyncSelect) : bool :=
  match x with SyncBlockIn _ => true | _ => false end.

(** The ticks [AggregationLoop] takes: those scheduled before the first
    cancellation. *)
Fixpoint ticksTaken (sched : list AggSelect) : nat :=
  match sched with
  | [] => O
  | AggCtxDone :: _ => O
  | AggTimer _ :: rest => Datatypes.S (ticksTaken rest)
  end.

(** The receptions [SyncLoop] handles: those scheduled before the first
    cancellation. *)
Fixpoint handled (sched : list SyncSelect) : list SyncSelect :=
  match sched with
  | [] => []
  | SyncCtxDone :: _ => []
  | x :: rest => x :: handled rest
  end.

End block.

(** ** In-memory collaborators

    Implementations of the interfaces above that compute, after the
    contracts of sections 4.1 to 4.3; the examples run the manager on them. *)

Module mem.

#[global] Instance byte_eq_dec : EqDecision Byte.byte := Byte.byte_eq_dec.
#[global] Instance BaseHeader_eq_dec : EqDecision BaseHeader.t.
Proof. solve_decision. Defined.
#[global] Instance Version_eq_dec : EqDecision Version.t.
Proof. solve_decision. Defined.
#[global] Instance Header_eq_dec : EqDecision Header.t.
Proof. solve_decision. Defined.
#[global] Instance Commit_eq_dec : EqDecision Commit.t.
Proof. solve_decision. Defined.
#[global] Instance Data_eq_dec : EqDecision Data.t.
Proof. solve_decision. Defined.
#[global] Instance Block_eq_dec : EqDecision Block.t.
Proof. solve_decision. Defined.

Definition ErrNotFound : error := ErrorString "not found".
Definition ErrConflict : error := ErrorString "conflict".
Definition ErrInvalidBlock : error := ErrorString "invalid block".

(** Modelled from the spec: the store of section 4.1. Blocks and commits
    are kept by height under separate keys, the state is a singleton, and
    [top] is the largest height saved so far ([initial_height - 1] on an
    empty store). *)
Record Store : Type := mkStore {
  blocks : gmap Z Block.t;
  commits : gmap Z Commit.t;
  state : option State.t;
  top : Z
}.

Definition Height (s : Store) : Z := wrap64 (top s).

Definition SaveBlock (s : Store) (b : Block.t) (c : Commit.t) : option error * Store :=
  let h := Header.Height (Block.Header b) in
  let saved := mkStore (<[h := b]> (blocks s)) (<[h := c]> (commits s)) (state s)
                       (Z.max (top s) h) in
  match blocks s !! h with
  | Some b' => if decide (b' = b) then (None, saved) else (Some ErrConflict, s)
  | None => (None, saved)
  end.

Definition LoadCommit (s : Store) (height : Z) : Commit.t + error :=
  match commits s !! height with
  | Some c => inl c
  | None => inr ErrNotFound
  end.

Definition UpdateState (s : Store) (st : State.t) : option error * Store :=
  (None, mkStore (blocks s) (commits s) (Some st) (top s)).

Definition Height_uint64 (s : Store) : 0 <= Height s < uint64_modulus :=
  Z.mod_pos_bound (top s) uint64_modulus eq_refl.

#[global] Instance Store_inst : store.Store Store :=
  {| store.Height := Height;
     store.Height_uint64 := Height_uint64;
     store.SaveBlock := SaveBlock;
     store.LoadCommit := LoadCommit;
     store.UpdateState := UpdateState |}.

(** A codec that writes the proposer address and digests a header to the
    zero hash; neither the section 6 layout nor SHA-256. *)
#[global] Instance Codec_inst : HeaderCodec :=
  {| MarshalBinary := fun h => inl (Header.ProposerAddress h);
     Hash := fun _ => zero32 |}.

(** Modelled from the spec: the executor of section 4.2 over a mempool of
    pending transactions. [CreateBlock] puts the given height and commit in
    the block and takes the aggregator hashes from the state; [ApplyBlock]
    rejects a header that fails [ValidateBasic] and otherwise returns the
    state advanced to the block's height. *)
Record Executor : Type := mkExecutor {
  proposerAddress : bytes;
  mempool : list bytes
}.

Definition CreateBlock (e : Executor) (height : Z) (lastCommit : Commit.t)
    (s : State.t) : Block.t * Executor :=
  (Block.mk
     (Header.mk (BaseHeader.mk height 0 (State.ChainID s)) (Version.mk 0 0)
                (State.LastBlockHash s) (Commit.HeaderHash lastCommit) []
                (State.ConsensusParams s) (State.AppHash s)
                (State.LastResultsHash s) (proposerAddress e)
                (State.Validators s) (State.NextValidators s))
     (Data.mk (mempool e) [])
     lastCommit,
   e).

Definition ApplyBlock (e : Executor) (s : State.t) (b : Block.t)
    : (State.t + error) * Executor :=
  match Header.ValidateBasic (Block.Header b) with
  | Some _ => (inr ErrInvalidBlock, e)
  | None =>
    (inl (State.mk (State.ChainID s) (State.InitialHeight s)
                   (Header.Height (Block.Header b))
                   (Hash (Block.Header b))
                   (State.LastResultsHash s)
                   (Header.AppHash (Block.Header b))
                   (State.Validators s) (State.NextValidators s)
                   (State.ConsensusParams s)),
     mkExecutor (proposerAddress e) [])
  end.

#[global] Instance Executor_inst : state.BlockExecutor Executor :=
  {| state.CreateBlock := CreateBlock; state.ApplyBlock := ApplyBlock |}.

(** A DA client that answers from two scripts, one answer per call, and
    with [StatusError] once a script is used up. *)
Record DA : Type := mkDA {
  submitScript : list da.ResultSubmitBlock;
  retrieveScript : list da.ResultRetrieveBlock
}.

Definition SubmitBlock (d : DA) (b : Block.t) : da.ResultSubmitBlock * DA :=
  match submitScript d with
  | r :: rest => (r, mkDA rest (retrieveScript d))
  | [] => (da.mkSubmit da.StatusError "no answer", d)
  end.

Definition RetrieveBlock (d : DA) (height : Z) : da.ResultRetrieveBlock * DA :=
  match retrieveScript d with
  | r :: rest => (r, mkDA (submitScript d) rest)
  | [] => (da.mkRetrieve da.StatusError "no answer" None, d)
  end.

#[global] Instance DA_client : da.DataAvailabilityLayerClient DA :=
  {| da.SubmitBlock := SubmitBlock |}.
#[global] Instance DA_retriever : da.BlockRetriever DA :=
  {| da.RetrieveBlock := RetrieveBlock |}.

(** A key that signs by prefixing itself to the message. *)
#[global] Instance Key_inst : crypto.PrivKey bytes :=
  {| crypto.Sign := fun k msg => inl (k ++ msg) |}.

End mem.

(** ** Concrete managers for the examples *)

Module examples.

Import block.

Definition proposer : bytes := [Byte.x01].

Definition header_at (height : Z) (aggs nextAggs : bytes) : Header.t :=
  Header.mk (BaseHeader.mk height 0 "test") (Version.mk 0 0)
            zero32 zero32 zero32 zero32 zero32 zero32 proposer aggs nextAggs.

Definition commit_at (height : Z) : Commit.t :=
  Commit.mk height zero32 [[Byte.x02]].

(** The block of a height, carrying the commit of the height before. *)
Definition block_at (height : Z) : Block.t :=
  Block.mk (header_at height zero32 zero32) (Data.mk [] []) (commit_at (height - 1)).

Definition state0 : State.t :=
  State.mk "test" 1 0 zero32 zero32 zero32 [] [] [].

Definition conf_with (retries : Z) : config.BlockManagerConfig :=
  config.mk (1000 * Millisecond) [] retries (100 * Millisecond).

Definition Mgr : Type := Manager mem.Store mem.Executor mem.DA bytes.

(** A fresh node: empty store at height 0, empty cache, a DA client that
    answers from the given scripts. *)
Definition fresh (retries : Z) (submits : list da.ResultSubmitBlock)
    (retrieves : list da.ResultRetrieveBlock) : Mgr :=
  mkManager state0 (conf_with retries) (tmtypes.mk "test" 1) [Byte.x07]
            (mem.mkStore ∅ ∅ None 0) (mem.mkExecutor proposer [])
            (mem.mkDA submits retrieves) 0 ∅.

(** The block a fresh proposer creates at height 1. *)
Definition first_block : Block.t :=
  fst (mem.CreateBlock (mem.mkExecutor proposer []) 1
         (Commit.mk 0 zero32 []) state0).

(** A follower that has staged the blocks of heights 2 and 3. *)
Definition staged23 : Mgr :=
  set_syncCache (<[2 := block_at 2]> (<[3 := block_at 3]> ∅)) (fresh 10 [] []).

(** A follower that has staged the block of height 2 only. *)
Definition staged2 : Mgr :=
  set_syncCache (<[2 := block_at 2]> ∅) (fresh 10 [] []).

(** A follower whose sync target is already 10. *)
Definition target10 : Mgr := set_syncTarget 10 (fresh 10 [] []).

(** A proposer whose store reports height 3 and holds no commit. *)
Definition commitless : Mgr :=
  set_store (mem.mkStore ∅ ∅ None 3) (fresh 10 [] []).

Definition timeout_answer : da.ResultRetrieveBlock :=
  da.mkRetrieve da.StatusTimeout "timeout" None.

Definition success_answer (height : Z) : da.ResultRetrieveBlock :=
  da.mkRetrieve da.StatusSuccess "" (Some (block_at height)).

(** The manager a method leaves, and what it did. *)
Definition after {A} (c : M mem.Store mem.Executor mem.DA bytes A) (m : Mgr) : Mgr :=
  snd (fst (c m)).

Definition trace {A} (c : M mem.Store mem.Executor mem.DA bytes A) (m : Mgr)
    : list Event :=
  snd (c m).

Definition outcome {A} (c : M mem.Store mem.Executor mem.DA bytes A) (m : Mgr)
    : Res A :=
  fst (fst (c m)).

End examples.

(** ** Test helpers of package types

    [GetRandomBytes], [GetRandomTx], [GetRandomHeader],
    [GetRandomNextHeader], [GetRandomBlock], [getCommit],
    [GetRandomValidatorSetWithPrivKey], [GetRandomValidatorSet],
    [GetRandomSignedHeader] and [GetRandomNextSignedHeader]. The random
    sources and the clock are a state [R] threaded through the calls; what
    they return is arbitrary within the range of its Go type. *)

Module testutil.

Import block.

Definition TestChainID : string := "test".

(** [time.Second], in nanoseconds. *)
Definition Second : Z := 1000000000.

(** [make] of a slice. The runtime panics ("makeslice: len out of range")
    when the length is negative or the slice would take more than
    [maxAlloc] bytes. The values are those of the 64-bit targets with 48
    address bits (amd64, arm64): [int] has 64 bits, [maxAlloc] is
    [1 << 48], and a slice header, the element of [Txs] and of [[][]byte],
    takes 24 bytes. Memory the runtime grants is taken to be there. *)
Definition maxAlloc : Z := 2 ^ 48.

Definition sliceHeaderSize : Z := 24.

Definition makeslice_panics (elemSize len : Z) : bool :=
  (len <? 0) || (maxAlloc <? elemSize * len).

(** [math/rand] ([Int63], [Int], [Read]) and [time.Now().UnixNano()]. *)
Class Random (R : Type) : Type := {
  Int63 : R -> Z * R;
  Int63_range : forall r, 0 <= fst (Int63 r) < int64_modulus_half;
  Int : R -> Z * R;
  Int_range : forall r, 0 <= fst (Int r) < int64_modulus_half;
  Read : R -> nat -> bytes * R;
  Read_length : forall r n, length (fst (Read r n)) = n;
  UnixNano : R -> Z * R;
  UnixNano_range :
    forall r, - int64_modulus_half <= fst (UnixNano r) < int64_modulus_half
}.

(** [ed25519] keys and the two hashes taken from other packages:
    [ValidatorSet.Hash] and [Commit.GetCommitHash]. *)
Record Validator (PUB : Type) : Type := mkValidator {
  PubKey : PUB;
  Address : bytes
}.
Arguments mkValidator {PUB}.
Arguments PubKey {PUB}.
Arguments Address {PUB}.

Record ValidatorSet (PUB : Type) : Type := mkValidatorSet {
  Proposer : Validator PUB;
  Validators : list (Validator PUB)
}.
Arguments mkValidatorSet {PUB}.
Arguments Proposer {PUB}.
Arguments Validators {PUB}.

Class Ed25519 (R PK PUB : Type) : Type := {
  GenPrivKey : R -> PK * R;
  PubKeyOf : PK -> PUB;
  AddressOf : PUB -> bytes;
  SignWith : PK -> bytes -> bytes + error;
  ValidatorSetHash : ValidatorSet PUB -> bytes;
  GetCommitHash : Commit.t -> Header.t -> bytes -> bytes
}.

(** [SignedHeader] and [Block] as these helpers fill them: the two
    structs are declared elsewhere in the package; the fields are those
    the helpers assign. *)
Record SignedHeader (PUB : Type) : Type := mkSignedHeader {
  SH_Header : Header.t;
  SH_Commit : Commit.t;
  SH_Validators : option (ValidatorSet PUB)
}.
Arguments mkSignedHeader {PUB}.
Arguments SH_Header {PUB}.
Arguments SH_Commit {PUB}.
Arguments SH_Validators {PUB}.

Record Block (PUB : Type) : Type := mkBlock {
  B_SignedHeader : SignedHeader PUB;
  B_Data : Data.t
}.
Arguments mkBlock {PUB}.
Arguments B_SignedHeader {PUB}.
Arguments B_Data {PUB}.

Definition set_AppHash (app : bytes) (h : Header.t) : Header.t :=
  Header.mk (Header.BaseHeader h) (Header.Version h) (Header.LastHeaderHash h)
            (Header.LastCommitHash h) (Header.DataHash h)
            (Header.ConsensusHash h) app (Header.LastResultsHash h)
            (Header.ProposerAddress h) (Header.AggregatorsHash h)
            (Header.NextAggregatorsHash h).

Definition set_Height (height : Z) (h : Header.t) : Header.t :=
  Header.mk (BaseHeader.mk height (BaseHeader.Time (Header.BaseHeader h))
                           (BaseHeader.ChainID (Header.BaseHeader h)))
            (Header.Version h) (Header.LastHeaderHash h)
            (Header.LastCommitHash h) (Header.DataHash h)
            (Header.ConsensusHash h) (Header.AppHash h)
            (Header.LastResultsHash h) (Header.ProposerAddress h)
            (Header.AggregatorsHash h) (Header.NextAggregatorsHash h).

Definition set_LastCommitHash (x : bytes) (h : Header.t) : Header.t :=
  Header.mk (Header.BaseHeader h) (Header.Version h) (Header.LastHeaderHash h)
            x (Header.DataHash h) (Header.ConsensusHash h) (Header.AppHash h)
            (Header.LastResultsHash h) (Header.ProposerAddress h)
            (Header.AggregatorsHash h) (Header.NextAggregatorsHash h).

Section Helpers.

Variables R PK PUB : Type.
Context `{!Random R} `{!Ed25519 R PK PUB} `{!HeaderCodec}.

(** [InitStateVersion.Consensus], a variable of another file. *)
Variable InitStateVersion : Version.t.

(** A helper returns, returns an error, or panics, and leaves the random
    state behind. *)
Definition G (A : Type) : Type := R -> Res A * R.

Definition gret {A} (a : A) : G A := fun r => (Ret a, r).

Definition gbind {A B} (c : G A) (k : A -> G B) : G B :=
  fun r =>
    match c r with
    | (Ret a, r1) => k a r1
    | (Fail e, r1) => (Fail e, r1)
    | (Panicked msg, r1) => (Panicked msg, r1)
    end.

Definition draw {A} (f : R -> A * R) : G A :=
  fun r => let '(a, r1) := f r in (Ret a, r1).

Local Notation "x <- c ;; k" := (gbind c (fun x => k))
  (at level 100, c at next level, right associativity).

(** [make([]byte, n)], then [rand.Read]. *)
Definition GetRandomBytes (n : Z) : G bytes :=
  if makeslice_panics 1 n
  then fun r => (Panicked "makeslice: len out of range", r)
  else draw (fun r => Read r (Z.to_nat n)).

Definition GetRandomTx : G bytes :=
  i <- draw Int ;;
  let size := i mod 100 + 100 in
  GetRandomBytes size.

(** The fields of the literal are evaluated in the order written;
    [NextAggregatorsHash] is not set. *)
Definition GetRandomHeader : G Header.t :=
  height <- draw Int63 ;;
  now <- draw UnixNano ;;
  lastHeaderHash <- GetRandomBytes 32 ;;
  lastCommitHash <- GetRandomBytes 32 ;;
  dataHash <- GetRandomBytes 32 ;;
  consensusHash <- GetRandomBytes 32 ;;
  appHash <- GetRandomBytes 32 ;;
  lastResultsHash <- GetRandomBytes 32 ;;
  proposerAddress <- GetRandomBytes 32 ;;
  aggregatorsHash <- GetRandomBytes 32 ;;
  gret (Header.mk (BaseHeader.mk (wrap64 height) (wrap64 now) TestChainID)
                  (Version.mk (Version.Block InitStateVersion)
                              (Version.App InitStateVersion))
                  lastHeaderHash lastCommitHash dataHash consensusHash
                  appHash lastResultsHash proposerAddress aggregatorsHash []).

Definition GetRandomNextHeader (header : Header.t) : G Header.t :=
  nextHeader <- GetRandomHeader ;;
  now <- draw UnixNano ;;
  gret (Header.mk
          (BaseHeader.mk (wrap64 (Header.Height header + 1))
                         (wrap64 (now + 1 * Second))
                         (BaseHeader.ChainID (Header.BaseHeader nextHeader)))
          (Header.Version nextHeader)
          (Hash header)
          (Header.LastCommitHash nextHeader) (Header.DataHash nextHeader)
          (Header.ConsensusHash nextHeader) (Header.AppHash nextHeader)
          (Header.LastResultsHash nextHeader)
          (Header.ProposerAddress header)
          (Header.AggregatorsHash header)
          (Header.NextAggregatorsHash header)).

(** [for i := 0; i < nTxs; i++]: a transaction, then a state root. *)
Fixpoint fillData (n : nat) : G (list bytes * list bytes) :=
  match n with
  | O => gret ([], [])
  | Datatypes.S n' =>
    tx <- GetRandomTx ;;
    root <- GetRandomBytes 32 ;;
    rest <- fillData n' ;;
    gret (tx :: fst rest, root :: snd rest)
  end.

(** [make(Txs, nTxs)] and [make([][]byte, nTxs)] are slices of slice
    headers of one length, so the first decides whether the literal
    panics; for [nTxs == 0] both lists are set to nil, the empty list
    here. *)
Definition GetRandomBlock (height : Z) (nTxs : Z) : G (Block PUB) :=
  header <- GetRandomHeader ;;
  let header := set_Height height header in
  if makeslice_panics sliceHeaderSize nTxs
  then fun r => (Panicked "makeslice: len out of range", r)
  else
    appHash <- GetRandomBytes 32 ;;
    data <- fillData (Z.to_nat nTxs) ;;
    gret (mkBlock (mkSignedHeader (set_AppHash appHash header)
                                  (Commit.mk 0 [] []) None)
                  (Data.mk (fst data) (snd data))).

Definition getCommit (header : Header.t) (privKey : PK) : G Commit.t :=
  match MarshalBinary header with
  | inr err => fun r => (Fail err, r)
  | inl headerBytes =>
    match SignWith privKey headerBytes with
    | inr err => fun r => (Fail err, r)
    | inl sign => gret (Commit.mk 0 [] [sign])
    end
  end.

Definition GetRandomValidatorSetWithPrivKey : G (ValidatorSet PUB * PK) :=
  privKey <- draw GenPrivKey ;;
  let pubKey := PubKeyOf privKey in
  gret (mkValidatorSet (mkValidator pubKey (AddressOf pubKey))
                       [mkValidator pubKey (AddressOf pubKey)],
        privKey).

Definition GetRandomValidatorSet : G (ValidatorSet PUB) :=
  both <- GetRandomValidatorSetWithPrivKey ;;
  gret (fst both).

Definition set_signing (valSet : ValidatorSet PUB) (h : Header.t) : Header.t :=
  Header.mk (Header.BaseHeader h) (Header.Version h) (Header.LastHeaderHash h)
            (Header.LastCommitHash h) (Header.DataHash h)
            (Header.ConsensusHash h) (Header.AppHash h)
            (Header.LastResultsHash h) (Address (Proposer valSet))
            (ValidatorSetHash valSet) (ValidatorSetHash valSet).

Definition GetRandomSignedHeader : G (SignedHeader PUB * PK) :=
  both <- GetRandomValidatorSetWithPrivKey ;;
  let valSet := fst both in
  let privKey := snd both in
  header <- GetRandomHeader ;;
  let header := set_signing valSet header in
  commit <- getCommit header privKey ;;
  gret (mkSignedHeader header commit (Some valSet), privKey).

Definition GetRandomNextSignedHeader (signedHeader : SignedHeader PUB)
    (privKey : PK) : G (SignedHeader PUB) :=
  let valSet := SH_Validators signedHeader in
  header <- GetRandomNextHeader (SH_Header signedHeader) ;;
  let header :=
    set_LastCommitHash
      (GetCommitHash (SH_Commit signedHeader) header
                     (Header.ProposerAddress (SH_Header signedHeader)))
      header in
  commit <- getCommit header privKey ;;
  gret (mkSignedHeader header commit valSet).

End Helpers.

Arguments G R A : clear implicits.
Arguments gret {R A}.
Arguments gbind {R A B}.
Arguments draw {R A}.
Arguments GetRandomBytes {R _}.
Arguments GetRandomTx {R _}.
Arguments GetRandomHeader {R _}.
Arguments GetRandomNextHeader {R _ _}.
Arguments fillData {R _}.
Arguments GetRandomBlock {R} PUB {_}.
Arguments getCommit {R PK PUB _ _}.
Arguments GetRandomValidatorSetWithPrivKey {R PK PUB _}.
Arguments GetRandomValidatorSet {R PK PUB _}.
Arguments GetRandomSignedHeader {R PK PUB _ _ _}.
Arguments GetRandomNextSignedHeader {R PK PUB _ _ _}.

End testutil.

(** ** More collaborators and managers for the examples *)

Module fixtures.

Import block examples.

(** A store over the in-memory one whose [UpdateState] can be made to
    fail. *)
Record FlakyStore : Type := mkFlaky {
  inner : mem.Store;
  updateFails : bool
}.

Definition ErrStateNotWritten : error := ErrorString "state not written".

#[global] Instance FlakyStore_inst : store.Store FlakyStore :=
  {| store.Height := fun s => mem.Height (inner s);
     store.Height_uint64 := fun s => mem.Height_uint64 (inner s);
     store.SaveBlock := fun s b c =>
       (fst (mem.SaveBlock (inner s) b c),
        mkFlaky (snd (mem.SaveBlock (inner s) b c)) (updateFails s));
     store.LoadCommit := fun s h => mem.LoadCommit (inner s) h;
     store.UpdateState := fun s st =>
       if updateFails s then (Some ErrStateNotWritten, s)
       else (None, mkFlaky (snd (mem.UpdateState (inner s) st)) false) |}.

#[global] Instance StateLoader_inst : wiring.StateLoader mem.Store :=
  {| wiring.LoadState := fun s =>
       match mem.state s with
       | Some st => inl st
       | None => inr mem.ErrNotFound
       end |}.

#[global] Instance GenesisState_inst : wiring.GenesisState :=
  {| wiring.NewFromGenesisDoc := fun g =>
       inl (State.mk (tmtypes.ChainID g) (tmtypes.InitialHeight g) 0
                     zero32 zero32 zero32 [] [] []) |}.

#[global] Instance ExecutorFactory_inst
    : wiring.ExecutorFactory mem.Executor (list bytes) unit :=
  {| wiring.NewBlockExecutor := fun proposerAddress _ mempool _ =>
       mem.mkExecutor proposerAddress mempool |}.

#[global] Instance PublicKey_inst : wiring.PublicKey bytes :=
  {| wiring.GetPublicRaw := fun k => inl k |}.

Definition FlakyMgr : Type := Manager FlakyStore mem.Executor mem.DA bytes.

(** A node whose store does not take the state. *)
Definition flaky : FlakyMgr :=
  mkManager state0 (conf_with 10) (tmtypes.mk "test" 1) [Byte.x07]
            (mkFlaky (mem.mkStore ∅ ∅ None 0) true)
            (mem.mkExecutor proposer [])
            (mem.mkDA [] []) 0 ∅.

(** The same node with the blocks of heights 1 and 2 staged. *)
Definition flaky12 : FlakyMgr :=
  set_syncCache (<[1 := block_at 1]> (<[2 := block_at 2]> ∅)) flaky.

(** A block of height 1 without proposer address, which the in-memory
    executor rejects. *)
Definition bad_block : Block.t :=
  Block.mk (Header.mk (BaseHeader.mk 1 0 "test") (Version.mk 0 0)
                      zero32 zero32 zero32 zero32 zero32 zero32 [] zero32 zero32)
           (Data.mk [] []) (commit_at 0).

(** A follower whose store already holds another block at height 1. *)
Definition taken : Mgr :=
  set_store (mem.mkStore (<[1 := bad_block]> ∅) ∅ None 0) (fresh 10 [] []).

(** That follower with the block of height 2 staged. *)
Definition taken2 : Mgr :=
  set_syncCache (<[2 := block_at 2]> ∅) taken.

(** A follower whose DA client holds the blocks of heights 1 to 3. *)
Definition fetching : Mgr :=
  fresh 10 [] [success_answer 1; success_answer 2; success_answer 3].

(** A DA client that takes submissions and has no [RetrieveBlock]. *)
Record SubmitOnly : Type := mkSubmitOnly {
  submitted : list Block.t
}.

#[global] Instance SubmitOnly_client : da.DataAvailabilityLayerClient SubmitOnly :=
  {| da.SubmitBlock := fun d b =>
       (da.mkSubmit da.StatusSuccess "", mkSubmitOnly (b :: submitted d)) |}.

(** What [NewManager] builds on an empty in-memory store. *)
Definition newborn : Mgr :=
  mkManager state0 (conf_with 10) (tmtypes.mk "test" 1) [Byte.x07]
            (mem.mkStore ∅ ∅ None 0) (mem.mkExecutor [Byte.x07] [])
            (mem.mkDA [] []) 0 ∅.

(** A proposer whose executor puts no proposer address in its blocks. *)
Definition anonymous : Mgr :=
  set_executor (mem.mkExecutor [] []) (fresh 10 [] []).

(** A proposer past the first block: the store is at height 1 and holds
    its commit; the DA client accepts one submission. *)
Definition running : Mgr :=
  set_store (mem.mkStore (<[1 := block_at 1]> ∅) (<[1 := commit_at 1]> ∅)
                         None 1)
            (fresh 10 [da.mkSubmit da.StatusSuccess ""] []).

(** The block that proposer creates at height 2. *)
Definition second_block : Block.t :=
  fst (mem.CreateBlock (mem.mkExecutor proposer []) 2 (commit_at 1) state0).

(** A random source that counts its calls, and a clock stuck at 5. *)
Definition Seed : Type := Z.

Definition seed_Int63_range (r : Seed)
    : 0 <= r mod int64_modulus_half < int64_modulus_half :=
  Z.mod_pos_bound r int64_modulus_half eq_refl.

Definition clock_range
    : - int64_modulus_half <= 5 < int64_modulus_half.
Proof. split; [discriminate | reflexivity]. Defined.

#[global] Instance Random_inst : testutil.Random Seed :=
  {| testutil.Int63 := fun r => (r mod int64_modulus_half, r + 1);
     testutil.Int63_range := seed_Int63_range;
     testutil.Int := fun r => (r mod int64_modulus_half, r + 1);
     testutil.Int_range := seed_Int63_range;
     testutil.Read := fun r n => (repeat Byte.x2a n, r + 1);
     testutil.Read_length := fun r n => repeat_length Byte.x2a n;
     testutil.UnixNano := fun r => (5, r + 1);
     testutil.UnixNano_range := fun r => clock_range |}.

(** Keys that are their own public key; the address is the first 20
    bytes, a signature the key followed by the message. *)
#[global] Instance Ed25519_inst : testutil.Ed25519 Seed bytes bytes :=
  {| testutil.GenPrivKey := fun r => (repeat Byte.x01 32, r + 1);
     testutil.PubKeyOf := fun k => k;
     testutil.AddressOf := fun k => firstn 20 k;
     testutil.SignWith := fun k msg => inl (k ++ msg);
     testutil.ValidatorSetHash := fun vs =>
       testutil.Address (testutil.Proposer vs);
     testutil.GetCommitHash := fun _ _ addr => addr |}.

Definition version0 : Version.t := Version.mk 11 0.

(** What a helper returns, and the random state it leaves. *)
Definition value {A} (c : testutil.G Seed A) (r : Seed) (default : A) : A :=
  match fst (c r) with
  | Ret a => a
  | _ => default
  end.

Definition signed0 : testutil.SignedHeader bytes * bytes :=
  value (testutil.GetRandomSignedHeader version0) 0
        (testutil.mkSignedHeader (header_at 0 [] []) (commit_at 0) None, []).

Definition signed1 : testutil.SignedHeader bytes :=
  value (testutil.GetRandomNextSignedHeader version0 (fst signed0) (snd signed0))
        100 (fst signed0).

End fixtures.

(** ** Properties of the header checks *)

Lemma bytes_Equal_eq (a b : bytes) : bytes_Equal a b = true <-> a = b.
Proof.
  revert b. induction a as [|x a IH]; intros [|y b]; simpl; split;
    try congruence; try reflexivity.
  - intros Hxy. apply andb_prop in Hxy as [Hh Ht].
    apply Byte.byte_dec_bl in Hh. apply IH in Ht. congruence.
  - intros Heq. injection Heq as -> ->.
    apply andb_true_intro. split; [apply Byte.byte_dec_lb; reflexivity|].
    apply IH. reflexivity.
Qed.

Lemma bytes_Equal_neq (a b : bytes) : bytes_Equal a b = false <-> a <> b.
Proof.
  rewrite <- bytes_Equal_eq. destruct (bytes_Equal a b); split; congruence.
Qed.

(** C7. For a trusted header [h] and an untrusted header [u] whose height
    is the one after [h]'s (as [Verify] computes it, [h.Height()+1] in
    [uint64]), [Verify] returns nil exactly when [u.AggregatorsHash] equals
    [h.NextAggregatorsHash], and a [VerifyError] when they differ. *)
Theorem Verify_adjacent (h u : Header.t) :
  Header.Height u = wrap64 (Header.Height h + 1) ->
  (Header.Verify h u = None <->
     Header.AggregatorsHash u = Header.NextAggregatorsHash h) /\
  (Header.AggregatorsHash u <> Header.NextAggregatorsHash h ->
     exists reason, Header.Verify h u = Some (VerifyError reason)).
Proof.
  intros Hadj. unfold Header.Verify. rewrite Hadj, Z.eqb_refl.
  destruct (bytes_Equal (Header.AggregatorsHash u) (Header.NextAggregatorsHash h))
    eqn:Heq; simpl.
  - apply bytes_Equal_eq in Heq. split; [tauto | congruence].
  - apply bytes_Equal_neq in Heq. split; [split; [discriminate | tauto] | eauto].
Qed.

(** C9. When the height of [u] is not the one after [h]'s (the test
    [untrstH.Height() == h.Height()+1] is false), [Verify] returns nil
    whatever the fields of [u] are. *)
Theorem Verify_not_adjacent (h u : Header.t) :
  Header.Height u <> wrap64 (Header.Height h + 1) ->
  Header.Verify h u = None.
Proof.
  intros Hne. unfold Header.Verify.
  destruct (Z.eqb_spec (Header.Height u) (wrap64 (Header.Height h + 1)));
    [contradiction | reflexivity].
Qed.

(** C10. [ValidateBasic] looks at [ProposerAddress] alone: whatever the
    other fields hold, it returns [ErrNoProposerAddress] for an empty
    address and nil otherwise, and [Validate] returns the same. *)
Theorem ValidateBasic_only_proposer
    (bh : BaseHeader.t) (v : Version.t)
    (lastHeader lastCommit data consensus app lastResults proposer aggs nextAggs : bytes) :
  let h := Header.mk bh v lastHeader lastCommit data consensus app lastResults
                     proposer aggs nextAggs in
  Header.ValidateBasic h =
    match proposer with
    | [] => Some ErrNoProposerAddress
    | _ :: _ => None
    end /\
  Header.Validate h = Header.ValidateBasic h.
Proof.
  simpl. split; [|reflexivity].
  unfold Header.ValidateBasic. simpl. destruct proposer; reflexivity.
Qed.


(** ** Properties of the manager *)

Import block.

Ltac run_monad :=
  unfold bind, ret, get, modify, emit, fail, panic, catch,
    call_LoadCommit, call_CreateBlock, call_ApplyBlock, call_Sign,
    call_SaveBlock, call_UpdateState, call_SubmitBlock, call_RetrieveBlock;
  cbn beta iota.

Section Sync.

Variables S E D K : Type.
Context `{!store.Store S} `{!state.BlockExecutor E}.

Local Abbreviation Manager := (Manager S E D K).

(** Without both blocks in the cache the handler only stages [b]. *)
Lemma syncBlockIn_waits (m : Manager) (b : Block.t) :
  pairStaged (stage b m) = false ->
  syncBlockIn b m =
    (Ret tt, stage b m, [EvLog "debug" "block body retrieved from DALC"]).
Proof.
  unfold pairStaged, syncBlockIn, stage. run_monad. cbn.
  destruct (_ !! wrap64 (store.Height (store m) + 1)) as [b1|];
    [destruct (_ !! wrap64 (store.Height (store m) + 2)) as [b2|]|];
    intros Hp; try discriminate; reflexivity.
Qed.

(** Whatever the calls answer, one inbound block leads to at most one
    [SaveBlock] call. *)
Lemma syncBlockIn_saves_at_most_once (m : Manager) (b : Block.t) :
  (count isSaveBlock (snd (syncBlockIn b m)) <= 1)%nat.
Proof.
  unfold syncBlockIn, count. run_monad. cbn.
  destruct (_ !! wrap64 (store.Height (store m) + 1)) as [b1|]; cbn; [|lia].
  destruct (_ !! wrap64 (store.Height (store m) + 2)) as [b2|]; cbn; [|lia].
  destruct (state.ApplyBlock (executor m) (lastState m) b1) as [[newState|err] e1];
    cbn; [|lia].
  destruct (store.SaveBlock (store m) b1 (Block.LastCommit b2)) as [[err|] st1];
    cbn; [lia|].
  destruct (store.UpdateState st1 newState) as [[err|] st2]; cbn; lia.
Qed.

(** A header at or below the store's height changes nothing. *)
Lemma syncHeaderIn_ignores_old (m : Manager) (header : Header.t) :
  Header.Height header <= store.Height (store m) ->
  syncHeaderIn header m =
    (Ret tt, m, [EvLog "debug" "block header received"]).
Proof.
  intros Hle. unfold syncHeaderIn. run_monad.
  apply Z.ltb_ge in Hle. rewrite Hle. reflexivity.
Qed.

(** C1, as the code has it. An inbound block [b] is put in the staging
    cache under its header's height; if the cache then holds [b1] at the
    store's height plus one and [b2] at plus two, and the calls succeed,
    the handler applies [b1], saves it with [b2]'s last commit, stores the
    new state and deletes [b1]'s height from the cache: once, with one
    [SaveBlock] call, and returns to [select]. *)
Theorem syncBlockIn_applies_one_pair (m : Manager) (b b1 b2 : Block.t)
    (newState : State.t) (e1 : E) (st1 st2 : S) :
  let cache := <[Header.Height (Block.Header b) := b]> (syncCache m) in
  let currentHeight := store.Height (store m) in
  cache !! wrap64 (currentHeight + 1) = Some b1 ->
  cache !! wrap64 (currentHeight + 2) = Some b2 ->
  state.ApplyBlock (executor m) (lastState m) b1 = (inl newState, e1) ->
  store.SaveBlock (store m) b1 (Block.LastCommit b2) = (None, st1) ->
  store.UpdateState st1 newState = (None, st2) ->
  syncBlockIn b m =
    (Ret tt,
     mkManager newState (conf m) (genesis m) (proposerKey m) st2 e1 (dalc m)
               (syncTarget m) (delete (wrap64 (currentHeight + 1)) cache),
     [EvLog "debug" "block body retrieved from DALC";
      EvApplyBlock (lastState m) b1;
      EvSaveBlock b1 (Block.LastCommit b2);
      EvUpdateState newState]).
Proof.
  intros cache currentHeight H1 H2 Happly Hsave Hupdate.
  unfold syncBlockIn. run_monad. cbn.
  fold cache currentHeight. rewrite H1, H2. cbn.
  rewrite Happly. cbn. rewrite Hsave. cbn. rewrite Hupdate. cbn.
  reflexivity.
Qed.

(** C2, as the code has it. For an inbound header above the store's
    height the handler stores the header's height in [syncTarget],
    whatever the target was, and sends the height on [retrieveCh]. *)
Theorem syncHeaderIn_stores_height (m : Manager) (header : Header.t) :
  store.Height (store m) < Header.Height header ->
  syncHeaderIn header m =
    (Ret tt, set_syncTarget (Header.Height header) m,
     [EvLog "debug" "block header received";
      EvSend_retrieveCh (Header.Height header)]).
Proof.
  intros Hlt. unfold syncHeaderIn. run_monad.
  apply Z.ltb_lt in Hlt. rewrite Hlt. reflexivity.
Qed.

(** C8, as the code has it. Delivering [b] a second time leaves the store
    and the last state as the first delivery left them whenever, with [b]
    staged again, the cache does not hold both blocks after the store's
    height, or the executor rejects the first of them. When both blocks
    are staged and the executor accepts, the second delivery calls
    [SaveBlock] once more, for the block after the store's height with the
    last commit of the block after it, and leaves the store as that call
    and, when it succeeds, [UpdateState] of the new state return it. *)
Theorem syncBlockIn_twice_same_store (m : Manager) (b : Block.t) :
  let m1 := snd (fst (syncBlockIn b m)) in
  let m2 := snd (fst (syncBlockIn b m1)) in
  let cache := syncCache (stage b m1) in
  let currentHeight := store.Height (store m1) in
  (pairStaged (stage b m1) = false ->
   store m2 = store m1 /\ lastState m2 = lastState m1) /\
  (forall (b1 : Block.t) (err : error) (e : E),
     cache !! wrap64 (currentHeight + 1) = Some b1 ->
     state.ApplyBlock (executor m1) (lastState m1) b1 = (inr err, e) ->
     store m2 = store m1 /\ lastState m2 = lastState m1) /\
  (forall (b1 b2 : Block.t) (newState : State.t) (e : E),
     cache !! wrap64 (currentHeight + 1) = Some b1 ->
     cache !! wrap64 (currentHeight + 2) = Some b2 ->
     state.ApplyBlock (executor m1) (lastState m1) b1 = (inl newState, e) ->
     count isSaveBlock (snd (syncBlockIn b m1)) = 1%nat /\
     In (EvSaveBlock b1 (Block.LastCommit b2)) (snd (syncBlockIn b m1)) /\
     match store.SaveBlock (store m1) b1 (Block.LastCommit b2) with
     | (Some _, st1) => store m2 = st1 /\ lastState m2 = lastState m1
     | (None, st1) =>
       store m2 = snd (store.UpdateState st1 newState) /\
       lastState m2 = newState
     end).
Proof.
  intros m1 m2 cache currentHeight. subst m2 cache currentHeight.
  clearbody m1. split; [|split].
  - intros Hp. rewrite (syncBlockIn_waits m1 b Hp). split; reflexivity.
  - intros b1 err e H1 Happly. unfold stage in H1. cbn in H1.
    unfold syncBlockIn. run_monad. cbn. rewrite H1.
    destruct (_ !! wrap64 (store.Height (store m1) + 2)) as [b2|]; cbn;
      [|split; reflexivity].
    rewrite Happly. cbn. split; reflexivity.
  - intros b1 b2 newState e H1 H2 Happly. unfold stage in H1, H2.
    cbn in H1, H2. unfold syncBlockIn, count. run_monad. cbn.
    rewrite H1, H2. cbn. rewrite Happly. cbn.
    destruct (store.SaveBlock (store m1) b1 (Block.LastCommit b2))
      as [[serr|] st1]; cbn.
    + split; [reflexivity|]. split; [auto 10|]. split; reflexivity.
    + destruct (store.UpdateState st1 newState) as [[uerr|] st2]; cbn;
        (split; [reflexivity|]; split; [auto 10|]; split; reflexivity).
Qed.

End Sync.

Section Retrieval.

Variables S E D K : Type.
Context `{!da.BlockRetriever D}.

Local Abbreviation Manager := (Manager S E D K).

Lemma set_dalc_same (m : Manager) : set_dalc (dalc m) m = m.
Proof. destruct m; reflexivity. Qed.

Lemma fetchBlock_not_success (m : Manager) (height : Z) :
  da.Code (answer (dalc m) height 0) <> da.StatusSuccess ->
  exists err,
    fetchBlock height m =
      (Ret (Some err), set_dalc (daAfter (dalc m) height 1) m,
       [EvRetrieveBlock height]).
Proof.
  unfold answer, fetchBlock. cbn [daAfter]. run_monad.
  destruct (da.RetrieveBlock (dalc m) height) as [r d1]. cbn.
  destruct (da.Code r); intros Hc; [contradiction | eauto | eauto].
Qed.

Lemma fetchBlock_success (m : Manager) (height : Z) :
  da.Code (answer (dalc m) height 0) = da.StatusSuccess ->
  fetchBlock height m =
    (Ret None, set_dalc (daAfter (dalc m) height 1) m,
     [EvRetrieveBlock height;
      EvSend_blockInCh (da.Block (answer (dalc m) height 0))]).
Proof.
  unfold answer, fetchBlock. cbn [daAfter]. run_monad.
  destruct (da.RetrieveBlock (dalc m) height) as [r d1]. cbn.
  intros ->. reflexivity.
Qed.

(** [k] failed rounds, then a success, with rounds to spare. *)
Lemma retrieveRounds_success (k : nat) :
  forall (n : nat) (m : Manager) (height : Z),
  (k < n)%nat ->
  (forall i, (i < k)%nat -> da.Code (answer (dalc m) height i) <> da.StatusSuccess) ->
  da.Code (answer (dalc m) height k) = da.StatusSuccess ->
  retrieveRounds n height m =
    (Ret tt, set_dalc (daAfter (dalc m) height (Datatypes.S k)) m,
     failedRounds height k ++
       [EvRetrieveBlock height;
        EvSend_blockInCh (da.Block (answer (dalc m) height k))]).
Proof.
  induction k as [|k IH]; intros n m height Hlt Hfail Hok;
    destruct n as [|n]; try lia; cbn [retrieveRounds].
  - unfold bind. rewrite (fetchBlock_success m height Hok). reflexivity.
  - destruct (fetchBlock_not_success m height (Hfail 0%nat ltac:(lia)))
      as [err Hf].
    unfold bind at 1. rewrite Hf. unfold bind, emit. cbn beta iota.
    rewrite (IH n (set_dalc (daAfter (dalc m) height 1) m) height);
      [reflexivity | lia | | exact Hok].
    intros i Hi. apply (Hfail (Datatypes.S i)). lia.
Qed.

(** Every round fails: the loop runs out and panics. *)
Lemma retrieveRounds_exhausted (n : nat) :
  forall (m : Manager) (height : Z),
  (forall i, (i < n)%nat -> da.Code (answer (dalc m) height i) <> da.StatusSuccess) ->
  retrieveRounds n height m =
    (Panicked "failed to retrieve block with DALC",
     set_dalc (daAfter (dalc m) height n) m, failedRounds height n).
Proof.
  induction n as [|n IH]; intros m height Hfail; cbn [retrieveRounds].
  - cbn. rewrite set_dalc_same. reflexivity.
  - destruct (fetchBlock_not_success m height (Hfail 0%nat ltac:(lia)))
      as [err Hf].
    unfold bind at 1. rewrite Hf. unfold bind, emit. cbn beta iota.
    rewrite (IH (set_dalc (daAfter (dalc m) height 1) m) height);
      [reflexivity |].
    intros i Hi. apply (Hfail (Datatypes.S i)). lia.
Qed.

Lemma count_failedRounds (height : Z) (k : nat) (tl : list Event) :
  count isRetrieveBlock (failedRounds height k ++ tl) =
    (k + count isRetrieveBlock tl)%nat.
Proof.
  unfold count, failedRounds. induction k as [|k IH]; [reflexivity|].
  cbn. cbn in IH. rewrite IH. reflexivity.
Qed.

(** C4, as the code has it. [mustRetrieveBlock] calls [fetchBlock] until
    the first answer with [StatusSuccess], sleeping 100 ms after each
    failed call, for at most 10 calls, a bound fixed in the code and read
    from no configuration. After [k < 10] failed answers a success ends the
    calls at [k + 1] and the block goes to [blockInCh]; after 10 failed
    answers the method panics. *)
Theorem mustRetrieveBlock_retries (m : Manager) (height : Z) (k : nat) :
  (forall i, (i < k)%nat -> da.Code (answer (dalc m) height i) <> da.StatusSuccess) ->
  ((k < 10)%nat ->
   da.Code (answer (dalc m) height k) = da.StatusSuccess ->
   let tr := failedRounds height k ++
               [EvRetrieveBlock height;
                EvSend_blockInCh (da.Block (answer (dalc m) height k))] in
   mustRetrieveBlock height m =
     (Ret tt, set_dalc (daAfter (dalc m) height (Datatypes.S k)) m, tr) /\
   count isRetrieveBlock tr = Datatypes.S k) /\
  (k = 10%nat ->
   mustRetrieveBlock height m =
     (Panicked "failed to retrieve block with DALC",
      set_dalc (daAfter (dalc m) height 10) m, failedRounds height 10) /\
   count isRetrieveBlock (failedRounds height 10) = 10%nat).
Proof.
  intros Hfail. unfold mustRetrieveBlock, maxRetries.
  change (Z.to_nat 10) with 10%nat. split.
  - intros Hlt Hok. split.
    + apply retrieveRounds_success; assumption.
    + rewrite count_failedRounds. cbn. lia.
  - intros ->. split.
    + apply retrieveRounds_exhausted; assumption.
    + reflexivity.
Qed.

End Retrieval.

Section Aggregation.

Variables S E D K : Type.
Context `{!store.Store S} `{!state.BlockExecutor E}
        `{!da.DataAvailabilityLayerClient D}
        `{!crypto.PrivKey K} `{!HeaderCodec}.

Local Abbreviation Manager := (Manager S E D K).

(** In [uint64], the height before the one after [h] is [h]. *)
Lemma wrap64_pred_succ (h : Z) :
  0 <= h < uint64_modulus -> wrap64 (wrap64 (h + 1) - 1) = h.
Proof.
  intros Hh. unfold wrap64.
  rewrite Zminus_mod_idemp_l.
  replace (h + 1 - 1) with h by lia. apply Z.mod_small. exact Hh.
Qed.

Lemma loadLastCommit_genesis (m : Manager) :
  newHeightOf m = wrap64 (tmtypes.InitialHeight (genesis m)) ->
  loadLastCommit m = (Ret (genesisCommit m), m, []).
Proof.
  intros Hg. unfold loadLastCommit. run_monad.
  rewrite Hg, Z.eqb_refl. reflexivity.
Qed.

Lemma loadLastCommit_failure (m : Manager) (err : error) :
  newHeightOf m <> wrap64 (tmtypes.InitialHeight (genesis m)) ->
  store.LoadCommit (store m) (store.Height (store m)) = inr err ->
  loadLastCommit m =
    (Fail (Errorf "error while loading last commit: %w" [ArgW err]), m,
     [EvLoadCommit (store.Height (store m))]).
Proof.
  intros Hne Hload. unfold loadLastCommit. run_monad.
  apply Z.eqb_neq in Hne. rewrite Hne, Hload. reflexivity.
Qed.

(** C3, as the code has it. In a tick whose height is not the initial
    height, a failing [LoadCommit] makes [publishBlock] return an error
    that wraps the store's, with the manager untouched and no block
    created; [AggregationLoop] logs the error, resets the timer and goes
    on to the next [select] with the same manager. *)
Theorem aggregation_LoadCommit_error (m : Manager) (err : error)
    (elapsed : Z) (rest : list AggSelect) :
  newHeightOf m <> wrap64 (tmtypes.InitialHeight (genesis m)) ->
  store.LoadCommit (store m) (store.Height (store m)) = inr err ->
  publishBlock m =
    (Fail (Errorf "error while loading last commit: %w" [ArgW err]), m,
     [EvLoadCommit (store.Height (store m))]) /\
  aggregationSelect (AggTimer elapsed :: rest) m =
    (fst (fst (aggregationSelect rest m)),
     snd (fst (aggregationSelect rest m)),
     [EvLoadCommit (store.Height (store m));
      EvLog "error" "error while publishing block";
      EvTimerReset (remainingSleep (config.BlockTime (conf m)) elapsed)]
       ++ snd (aggregationSelect rest m)).
Proof.
  intros Hne Hload.
  assert (Hp : publishBlock m =
    (Fail (Errorf "error while loading last commit: %w" [ArgW err]), m,
     [EvLoadCommit (store.Height (store m))])).
  { unfold publishBlock. unfold bind at 1. unfold get at 1. cbn beta iota.
    unfold bind at 1. rewrite (loadLastCommit_failure m err Hne Hload).
    reflexivity. }
  split; [exact Hp|].
  cbn [aggregationSelect]. unfold aggregationTick, getRemainingSleep.
  unfold bind at 1. unfold bind at 1. unfold bind at 1. unfold catch.
  rewrite Hp. run_monad. cbn.
  destruct (aggregationSelect rest m) as [[r m'] tr]. reflexivity.
Qed.

(** C5. When [SubmitBlock] answers with a code other than success,
    [publishBlock] returns an error after [SaveBlock] and [UpdateState]
    have been called, in this order and before [SubmitBlock]; the store
    they left and the new last state stay in the manager, and no header is
    sent. With a store whose height is then the saved block's, the next
    tick computes the height after it. *)
Theorem publishBlock_submit_failure (m : Manager) (lastCommit : Commit.t)
    (tr0 : list Event) (b : Block.t) (e1 e2 : E) (newState : State.t)
    (headerBytes sign : bytes) (st1 st2 : S)
    (res : da.ResultSubmitBlock) (d1 : D) :
  loadLastCommit m = (Ret lastCommit, m, tr0) ->
  state.CreateBlock (executor m) (newHeightOf m) lastCommit (lastState m) = (b, e1) ->
  state.ApplyBlock e1 (lastState m) b = (inl newState, e2) ->
  MarshalBinary (Block.Header b) = inl headerBytes ->
  crypto.Sign (proposerKey m) headerBytes = inl sign ->
  store.SaveBlock (store m) b (commitOf b sign) = (None, st1) ->
  store.UpdateState st1 newState = (None, st2) ->
  da.SubmitBlock (dalc m) b = (res, d1) ->
  da.SubmitCode res <> da.StatusSuccess ->
  let m' := mkManager newState (conf m) (genesis m) (proposerKey m) st2 e2 d1
                      (syncTarget m) (syncCache m) in
  publishBlock m =
    (Fail (Errorf "DA layer submission failed: %s" [ArgS (da.SubmitMessage res)]),
     m',
     tr0 ++
     [EvLog "info" "Creating and publishing block";
      EvCreateBlock (newHeightOf m) lastCommit (lastState m);
      EvLog "debug" "block info";
      EvApplyBlock (lastState m) b;
      EvSign headerBytes;
      EvSaveBlock b (commitOf b sign);
      EvUpdateState newState;
      EvSubmitBlock b]) /\
  (store.Height st2 = newHeightOf m ->
   newHeightOf m' = wrap64 (newHeightOf m + 1)).
Proof.
  intros Hlast Hcreate Happly Hmarshal Hsign Hsave Hupdate Hsubmit Hcode m'.
  split.
  - unfold publishBlock. unfold bind at 1. unfold get at 1. cbn beta iota.
    unfold bind at 1. rewrite Hlast. cbn beta iota.
    unfold broadcastBlock. run_monad. cbn.
    rewrite Hcreate. cbn. rewrite Happly. cbn. rewrite Hmarshal. cbn.
    rewrite Hsign. cbn. fold (commitOf b sign). rewrite Hsave. cbn.
    rewrite Hupdate. cbn. rewrite Hsubmit. cbn.
    destruct (da.SubmitCode res); [contradiction | reflexivity | reflexivity].
  - intros Hh. unfold newHeightOf at 1. cbn. rewrite Hh. reflexivity.
Qed.

(** A tick in which every call up to [UpdateState] succeeds: what the DA
    client answers decides between nil and an error, and whether the
    header is sent. *)
Lemma publishBlock_saved (m : Manager) (lastCommit : Commit.t)
    (tr0 : list Event) (b : Block.t) (e1 e2 : E) (newState : State.t)
    (headerBytes sign : bytes) (st1 st2 : S) :
  loadLastCommit m = (Ret lastCommit, m, tr0) ->
  state.CreateBlock (executor m) (newHeightOf m) lastCommit (lastState m) = (b, e1) ->
  state.ApplyBlock e1 (lastState m) b = (inl newState, e2) ->
  MarshalBinary (Block.Header b) = inl headerBytes ->
  crypto.Sign (proposerKey m) headerBytes = inl sign ->
  store.SaveBlock (store m) b (commitOf b sign) = (None, st1) ->
  store.UpdateState st1 newState = (None, st2) ->
  publishBlock m =
    (match da.SubmitCode (fst (da.SubmitBlock (dalc m) b)) with
     | da.StatusSuccess => Ret tt
     | _ => Fail (Errorf "DA layer submission failed: %s"
                         [ArgS (da.SubmitMessage (fst (da.SubmitBlock (dalc m) b)))])
     end,
     mkManager newState (conf m) (genesis m) (proposerKey m) st2 e2
               (snd (da.SubmitBlock (dalc m) b)) (syncTarget m) (syncCache m),
     tr0 ++
     [EvLog "info" "Creating and publishing block";
      EvCreateBlock (newHeightOf m) lastCommit (lastState m);
      EvLog "debug" "block info";
      EvApplyBlock (lastState m) b;
      EvSign headerBytes;
      EvSaveBlock b (commitOf b sign);
      EvUpdateState newState;
      EvSubmitBlock b] ++
     match da.SubmitCode (fst (da.SubmitBlock (dalc m) b)) with
     | da.StatusSuccess => [EvSend_HeaderOutCh (Block.Header b)]
     | _ => []
     end).
Proof.
  intros Hlast Hcreate Happly Hmarshal Hsign Hsave Hupdate.
  unfold publishBlock. unfold bind at 1. unfold get at 1. cbn beta iota.
  unfold bind at 1. rewrite Hlast. cbn beta iota.
  unfold broadcastBlock. run_monad. cbn.
  rewrite Hcreate. cbn. rewrite Happly. cbn. rewrite Hmarshal. cbn.
  rewrite Hsign. cbn. fold (commitOf b sign). rewrite Hsave. cbn.
  rewrite Hupdate. cbn.
  destruct (da.SubmitBlock (dalc m) b) as [res d1]. cbn.
  destruct (da.SubmitCode res); cbn; rewrite <- ?app_assoc; reflexivity.
Qed.

End Aggregation.

Section GenesisTick.

Variables D K : Type.
Context `{!da.DataAvailabilityLayerClient D} `{!crypto.PrivKey K}
        `{!HeaderCodec}.

Local Abbreviation Manager := (Manager mem.Store mem.Executor D K).

(** C6. Over the store of section 4.1 and the executor of section 4.2: in
    the tick that produces the initial height, [publishBlock] asks the
    store for no commit; it calls [CreateBlock] with the commit whose
    height is the one before the new height, whose header hash is 32 zero
    bytes and which has no signature. The block that call returns carries
    this commit as its last commit, and when the block is accepted and
    signed it is the block the store holds at the new height afterwards,
    with the commit made of its height, its hash and the signature,
    whatever the DA client answers. *)
Theorem publishBlock_genesis_commit (m : Manager) (headerBytes sign : bytes) :
  let zeroCommit :=
    Commit.mk (wrap64 (newHeightOf m - 1)) (repeat Byte.x00 32) [] in
  let b :=
    fst (mem.CreateBlock (executor m) (newHeightOf m) zeroCommit (lastState m)) in
  newHeightOf m = wrap64 (tmtypes.InitialHeight (genesis m)) ->
  mem.proposerAddress (executor m) <> [] ->
  MarshalBinary (Block.Header b) = inl headerBytes ->
  crypto.Sign (proposerKey m) headerBytes = inl sign ->
  mem.blocks (store m) !! newHeightOf m = None ->
  exists newState,
    fst (mem.ApplyBlock (executor m) (lastState m) b) = inl newState /\
    snd (publishBlock m) =
      [EvLog "info" "Creating and publishing block";
       EvCreateBlock (newHeightOf m) zeroCommit (lastState m);
       EvLog "debug" "block info";
       EvApplyBlock (lastState m) b;
       EvSign headerBytes;
       EvSaveBlock b (commitOf b sign);
       EvUpdateState newState;
       EvSubmitBlock b] ++
      match da.SubmitCode (fst (da.SubmitBlock (dalc m) b)) with
      | da.StatusSuccess => [EvSend_HeaderOutCh (Block.Header b)]
      | _ => []
      end /\
    Block.LastCommit b = zeroCommit /\
    Header.Height (Block.Header b) = newHeightOf m /\
    mem.blocks (store (snd (fst (publishBlock m)))) !! newHeightOf m = Some b /\
    mem.commits (store (snd (fst (publishBlock m)))) !! newHeightOf m =
      Some (commitOf b sign).
Proof.
  intros zeroCommit b Hg Hprop Hmarshal Hsign Hfree.
  assert (Hlast : loadLastCommit m = (Ret zeroCommit, m, [])).
  { rewrite (loadLastCommit_genesis _ _ _ _ m Hg).
    unfold genesisCommit, zeroCommit, newHeightOf.
    rewrite (wrap64_pred_succ _ (store.Height_uint64 (store m))).
    reflexivity. }
  assert (Hvalid : Header.ValidateBasic (Block.Header b) = None).
  { unfold Header.ValidateBasic, b. cbn.
    destruct (mem.proposerAddress (executor m)); [contradiction | reflexivity]. }
  assert (Happly : exists newState e2,
    mem.ApplyBlock (executor m) (lastState m) b = (inl newState, e2)).
  { unfold mem.ApplyBlock. rewrite Hvalid. eauto. }
  destruct Happly as (newState & e2 & Happly).
  assert (Hsave : mem.SaveBlock (store m) b (commitOf b sign) =
    (None,
     mem.mkStore (<[newHeightOf m := b]> (mem.blocks (store m)))
                 (<[newHeightOf m := commitOf b sign]> (mem.commits (store m)))
                 (mem.state (store m))
                 (Z.max (mem.top (store m)) (newHeightOf m)))).
  { unfold mem.SaveBlock.
    change (Header.Height (Block.Header b)) with (newHeightOf m).
    rewrite Hfree. reflexivity. }
  assert (Hcreate :
    state.CreateBlock (executor m) (newHeightOf m) zeroCommit (lastState m) =
      (b, executor m)) by reflexivity.
  exists newState. split; [rewrite Happly; reflexivity|].
  rewrite (publishBlock_saved _ _ _ _ m zeroCommit [] b (executor m) e2
             newState headerBytes sign _
             (snd (mem.UpdateState
                     (snd (mem.SaveBlock (store m) b (commitOf b sign)))
                     newState))
             Hlast Hcreate Happly Hmarshal Hsign Hsave)
    by (rewrite Hsave; reflexivity).
  rewrite Hsave.
  cbn [fst snd store app].
  split; [reflexivity|]. split; [reflexivity|]. split; [reflexivity|].
  split; apply lookup_insert_eq.
Qed.

End GenesisTick.


(** ** The properties at concrete managers *)

Import examples.

(** Heights 7 and 8 with matching aggregator hashes. *)
Lemma Verify_adjacent_witness :
  (Header.Verify (header_at 7 [] [Byte.x0a]) (header_at 8 [Byte.x0a] []) = None <->
     Header.AggregatorsHash (header_at 8 [Byte.x0a] []) =
     Header.NextAggregatorsHash (header_at 7 [] [Byte.x0a])) /\
  (Header.AggregatorsHash (header_at 8 [Byte.x0a] []) <>
     Header.NextAggregatorsHash (header_at 7 [] [Byte.x0a]) ->
   exists reason,
     Header.Verify (header_at 7 [] [Byte.x0a]) (header_at 8 [Byte.x0a] []) =
       Some (VerifyError reason)).
Proof.
  apply (Verify_adjacent (header_at 7 [] [Byte.x0a]) (header_at 8 [Byte.x0a] [])).
  reflexivity.
Defined.

(** Height 5 against a trusted height 7, with aggregator hashes that
    differ. *)
Lemma Verify_not_adjacent_witness :
  Header.Verify (header_at 7 [] [Byte.x0a]) (header_at 5 [Byte.x0b] []) = None.
Proof.
  apply (Verify_not_adjacent (header_at 7 [] [Byte.x0a]) (header_at 5 [Byte.x0b] [])).
  vm_compute. discriminate.
Defined.

(** Block 1 arrives at a follower that staged block 2: block 1 is applied
    and saved, and its height leaves the cache. *)
Lemma syncBlockIn_applies_one_pair_witness :
  outcome (syncBlockIn (block_at 1)) staged2 = Ret tt /\
  store.Height (store (after (syncBlockIn (block_at 1)) staged2)) = 1 /\
  syncCache (after (syncBlockIn (block_at 1)) staged2) !! 1 = None /\
  count isSaveBlock (trace (syncBlockIn (block_at 1)) staged2) = 1%nat.
Proof.
  pose proof (syncBlockIn_applies_one_pair _ _ _ _ staged2
    (block_at 1) (block_at 1) (block_at 2)
    (State.mk "test" 1 1 zero32 zero32 zero32 [] [] [])
    (mem.mkExecutor proposer [])
    (snd (mem.SaveBlock (store staged2) (block_at 1) (commit_at 1)))
    (snd (mem.UpdateState
            (snd (mem.SaveBlock (store staged2) (block_at 1) (commit_at 1)))
            (State.mk "test" 1 1 zero32 zero32 zero32 [] [] [])))) as W.
  cbv zeta in W.
  unfold outcome, after, trace.
  rewrite W by (vm_compute; reflexivity).
  vm_compute. repeat split; reflexivity.
Defined.

(** C1 fails as stated: block 1 arrives at a follower that staged blocks 2
    and 3; the handler saves one block, and when it returns the cache still
    holds both blocks after the store's height. *)
Lemma syncBlockIn_leaves_a_staged_pair :
  outcome (syncBlockIn (block_at 1)) staged23 = Ret tt /\
  store.Height (store (after (syncBlockIn (block_at 1)) staged23)) = 1 /\
  pairStaged (after (syncBlockIn (block_at 1)) staged23) = true /\
  count isSaveBlock (trace (syncBlockIn (block_at 1)) staged23) = 1%nat.
Proof. vm_compute. repeat split; reflexivity. Qed.

(** Header 5 arrives at a fresh follower. *)
Lemma syncHeaderIn_stores_height_witness :
  syncTarget (after (syncHeaderIn (header_at 5 [] [])) (fresh 10 [] [])) = 5.
Proof.
  unfold after.
  rewrite (syncHeaderIn_stores_height _ _ _ _ (fresh 10 [] []) (header_at 5 [] []))
    by (vm_compute; reflexivity).
  reflexivity.
Defined.

(** C2 fails as stated: with the target at 10 and the store at 0, header 5
    brings the target down to 5, not to the larger of the two. *)
Lemma syncHeaderIn_lowers_target :
  syncTarget target10 = 10 /\
  store.Height (store target10) < Header.Height (header_at 5 [] []) /\
  syncTarget (after (syncHeaderIn (header_at 5 [] [])) target10) = 5 /\
  syncTarget (after (syncHeaderIn (header_at 5 [] [])) target10) <>
    Z.max (syncTarget target10) (Header.Height (header_at 5 [] [])).
Proof. vm_compute. repeat split; congruence. Qed.

(** A store at height 3 without the commit of height 3: the tick fails and
    the loop takes the next tick. *)
Lemma aggregation_LoadCommit_error_witness :
  outcome publishBlock commitless =
    Fail (Errorf "error while loading last commit: %w" [ArgW mem.ErrNotFound]) /\
  after (aggregationSelect [AggTimer 0]) commitless = commitless.
Proof.
  destruct (aggregation_LoadCommit_error _ _ _ _ commitless mem.ErrNotFound 0 [])
    as [Hp Hl]; [vm_compute; discriminate | reflexivity |].
  unfold outcome, after. rewrite Hp, Hl. split; reflexivity.
Defined.

(** C3 fails as stated: after the failed [LoadCommit] the loop neither
    returns nor panics; it waits for the next tick and, at it, calls
    [LoadCommit] again. *)
Lemma aggregation_survives_LoadCommit_error :
  store.LoadCommit (store commitless) (store.Height (store commitless)) =
    inr mem.ErrNotFound /\
  newHeightOf commitless <> wrap64 (tmtypes.InitialHeight (genesis commitless)) /\
  outcome (AggregationLoop [AggTimer 0; AggTimer 0]) commitless = Ret Waiting /\
  count isLoadCommit (trace (AggregationLoop [AggTimer 0; AggTimer 0]) commitless) = 2%nat.
Proof. vm_compute. repeat split; congruence. Qed.

(** Three timeouts, then a success: four calls, no panic, and the block
    goes to the sync loop. *)
Lemma mustRetrieveBlock_retries_witness :
  outcome (mustRetrieveBlock 4)
    (fresh 10 [] [timeout_answer; timeout_answer; timeout_answer; success_answer 4])
    = Ret tt /\
  count isRetrieveBlock
    (trace (mustRetrieveBlock 4)
       (fresh 10 [] [timeout_answer; timeout_answer; timeout_answer; success_answer 4]))
    = 4%nat /\
  In (EvSend_blockInCh (Some (block_at 4)))
    (trace (mustRetrieveBlock 4)
       (fresh 10 [] [timeout_answer; timeout_answer; timeout_answer; success_answer 4])).
Proof.
  destruct (mustRetrieveBlock_retries _ _ _ _
    (fresh 10 [] [timeout_answer; timeout_answer; timeout_answer; success_answer 4])
    4 3%nat) as [Hok _].
  - intros i Hi.
    destruct i as [|[|[|i]]]; [vm_compute; discriminate .. | lia].
  - destruct Hok as [Hrun Hcount]; [lia | reflexivity |].
    unfold outcome, trace. rewrite Hrun. cbn [fst snd].
    split; [reflexivity|]. split; [exact Hcount|].
    vm_compute. auto 10.
Defined.

(** C4 fails as stated: with [MaxRetrieveRetries] set to 3 and a DA client
    that always answers with an error, [mustRetrieveBlock] makes 10 calls
    before it panics. *)
Lemma mustRetrieveBlock_ignores_configuration :
  config.MaxRetrieveRetries (conf (fresh 3 [] [])) = 3 /\
  outcome (mustRetrieveBlock 4) (fresh 3 [] []) =
    Panicked "failed to retrieve block with DALC" /\
  count isRetrieveBlock (trace (mustRetrieveBlock 4) (fresh 3 [] [])) = 10%nat.
Proof. vm_compute. repeat split; reflexivity. Qed.

(** A fresh proposer whose DA client times out on submission: the tick
    returns an error, block 1 stays saved and the next tick is for
    height 2. *)
Lemma publishBlock_submit_failure_witness :
  outcome publishBlock (fresh 10 [da.mkSubmit da.StatusTimeout "timeout"] []) =
    Fail (Errorf "DA layer submission failed: %s" [ArgS "timeout"]) /\
  mem.blocks (store (after publishBlock
                       (fresh 10 [da.mkSubmit da.StatusTimeout "timeout"] [])))
    !! 1 = Some first_block /\
  newHeightOf (after publishBlock
                 (fresh 10 [da.mkSubmit da.StatusTimeout "timeout"] [])) = 2.
Proof.
  pose proof (publishBlock_submit_failure _ _ _ _
    (fresh 10 [da.mkSubmit da.StatusTimeout "timeout"] [])
    (Commit.mk 0 zero32 []) [] first_block
    (mem.mkExecutor proposer []) (mem.mkExecutor proposer [])
    (State.mk "test" 1 1 zero32 zero32 zero32 [] [] [])
    proposer ([Byte.x07] ++ proposer)
    (snd (mem.SaveBlock (mem.mkStore ∅ ∅ None 0) first_block
            (commitOf first_block ([Byte.x07] ++ proposer))))
    (snd (mem.UpdateState
            (snd (mem.SaveBlock (mem.mkStore ∅ ∅ None 0) first_block
                    (commitOf first_block ([Byte.x07] ++ proposer))))
            (State.mk "test" 1 1 zero32 zero32 zero32 [] [] [])))
    (da.mkSubmit da.StatusTimeout "timeout") (mem.mkDA [] [])) as W.
  cbv zeta in W.
  destruct W as [Hrun Hnext]; try (vm_compute; reflexivity).
  - vm_compute. discriminate.
  - unfold outcome, after. rewrite Hrun. cbn [fst snd].
    split; [reflexivity|]. split; [vm_compute; reflexivity|].
    rewrite Hnext; vm_compute; reflexivity.
Defined.

(** A fresh proposer with initial height 1: [CreateBlock] is called for
    height 1 with the commit of height 0, and the store then holds block 1
    with that commit as its last commit. *)
Lemma publishBlock_genesis_commit_witness :
  In (EvCreateBlock 1 (Commit.mk 0 (repeat Byte.x00 32) []) state0)
     (trace publishBlock (fresh 10 [] [])) /\
  mem.blocks (store (after publishBlock (fresh 10 [] []))) !! 1 =
    Some first_block /\
  Block.LastCommit first_block = Commit.mk 0 (repeat Byte.x00 32) [] /\
  store.Height (store (after publishBlock (fresh 10 [] []))) = 1.
Proof.
  pose proof (publishBlock_genesis_commit _ _ (fresh 10 [] [])
                proposer ([Byte.x07] ++ proposer)) as W.
  cbv zeta in W.
  destruct W as (newState & _ & Htr & Hlast & _ & Hblock & _).
  - vm_compute. reflexivity.
  - vm_compute. discriminate.
  - reflexivity.
  - reflexivity.
  - vm_compute. reflexivity.
  - unfold trace, after. split; [rewrite Htr; cbn; auto 10|].
    split; [exact Hblock|]. split; [exact Hlast|].
    vm_compute. reflexivity.
Defined.

(** Block 1 arrives twice at a follower that staged block 2: the second
    arrival finds no block at height 3 and leaves the store alone. It
    arrives twice at a follower that staged blocks 2 and 3: the second
    arrival calls [SaveBlock] for block 2 with the last commit of
    block 3. *)
Lemma syncBlockIn_twice_same_store_witness :
  (store (after (syncBlockIn (block_at 1)) (after (syncBlockIn (block_at 1)) staged2)) =
     store (after (syncBlockIn (block_at 1)) staged2) /\
   store.Height (store (after (syncBlockIn (block_at 1)) staged2)) = 1) /\
  In (EvSaveBlock (block_at 2) (commit_at 2))
     (trace (syncBlockIn (block_at 1)) (after (syncBlockIn (block_at 1)) staged23)).
Proof.
  split.
  - split; [|vm_compute; reflexivity].
    apply (syncBlockIn_twice_same_store _ _ _ _ staged2 (block_at 1)).
    vm_compute. reflexivity.
  - pose proof (syncBlockIn_twice_same_store _ _ _ _ staged23 (block_at 1)) as W.
    cbv zeta in W. destruct W as (_ & _ & W).
    apply (W (block_at 2) (block_at 3)
             (State.mk "test" 1 2 zero32 zero32 zero32 [] [] [])
             (mem.mkExecutor proposer []));
      vm_compute; reflexivity.
Defined.

(** C8 fails as stated: block 1 arrives twice at a follower that staged
    blocks 2 and 3; the first arrival saves block 1, the second saves
    block 2, and the store is not the one a single arrival leaves. *)
Lemma syncBlockIn_twice_differs :
  store.Height (store (after (syncBlockIn (block_at 1)) staged23)) = 1 /\
  store.Height
    (store (after (syncBlockIn (block_at 1))
              (after (syncBlockIn (block_at 1)) staged23))) = 2 /\
  store (after (syncBlockIn (block_at 1))
           (after (syncBlockIn (block_at 1)) staged23)) <>
    store (after (syncBlockIn (block_at 1)) staged23).
Proof.
  split; [vm_compute; reflexivity|]. split; [vm_compute; reflexivity|].
  intros Heq. apply (f_equal mem.Height) in Heq. vm_compute in Heq.
  discriminate.
Qed.

(** ** Further properties of aggregation *)

(** Case analysis on every call a method makes. *)
Ltac split_calls :=
  repeat (cbn;
    match goal with
    | |- context [match ?x with _ => _ end] =>
        lazymatch x with
        | context [match _ with _ => _ end] => fail
        | _ => destruct x eqn:?
        end
    end);
  cbn.

Section AggregationMore.

Variables S E D K : Type.
Context `{!store.Store S} `{!state.BlockExecutor E}
        `{!da.DataAvailabilityLayerClient D}
        `{!crypto.PrivKey K} `{!HeaderCodec}.

Local Abbreviation Manager := (Manager S E D K).

Ltac run_publishBlock :=
  unfold publishBlock, loadLastCommit, broadcastBlock; run_monad; split_calls.

(** X1. [publishBlock] never panics, and it sends the header on
    [HeaderOutCh], once, exactly when it returns nil. *)
Theorem publishBlock_header_iff_nil (m : Manager) :
  match fst (fst (publishBlock m)) with
  | Ret _ => count isSend_HeaderOutCh (snd (publishBlock m)) = 1%nat
  | Fail _ => count isSend_HeaderOutCh (snd (publishBlock m)) = 0%nat
  | Panicked _ => False
  end.
Proof. run_publishBlock; reflexivity. Qed.

(** X2. In every run of [publishBlock], [SubmitBlock] is called at most
    once, and a call comes directly after [SaveBlock] of the same block
    and [UpdateState] of the manager's new last state; nothing is saved or
    submitted before that. *)
Theorem publishBlock_submits_after_saving (m : Manager) :
  count isSubmitBlock (snd (publishBlock m)) = 0%nat \/
  exists pre b c post,
    snd (publishBlock m) =
      pre ++ [EvSaveBlock b c;
              EvUpdateState (lastState (snd (fst (publishBlock m))));
              EvSubmitBlock b] ++ post /\
    count isSaveBlock pre = 0%nat /\
    count isSubmitBlock pre = 0%nat /\
    count isSubmitBlock post = 0%nat.
Proof.
  run_publishBlock; try (left; reflexivity); right;
    first [ eexists [_; _; _; _; _], _, _, _;
            (split; [reflexivity | repeat split; reflexivity])
          | eexists [_; _; _; _; _; _], _, _, _;
            (split; [reflexivity | repeat split; reflexivity]) ].
Qed.

(** X3. Whatever [publishBlock] saves is the block [CreateBlock] returned
    for the height after the store's, with a commit that names this
    block's height and header hash and carries exactly one signature. *)
Theorem publishBlock_saves_created_block (m : Manager) (saved : Block.t)
    (commit : Commit.t) :
  In (EvSaveBlock saved commit) (snd (publishBlock m)) ->
  (exists lastCommit,
     In (EvCreateBlock (newHeightOf m) lastCommit (lastState m))
        (snd (publishBlock m)) /\
     saved = fst (state.CreateBlock (executor m) (newHeightOf m) lastCommit
                                    (lastState m))) /\
  Commit.Height commit = Header.Height (Block.Header saved) /\
  Commit.HeaderHash commit = Hash (Block.Header saved) /\
  length (Commit.Signatures commit) = 1%nat.
Proof.
  revert saved commit. run_publishBlock; intros saved commit Hin; cbn in Hin;
    repeat match goal with
    | H : _ \/ _ |- _ => destruct H as [H|H]
    | H : False |- _ => destruct H
    | H : _ = EvSaveBlock _ _ |- _ => first [discriminate H | injection H as <- <-]
    end;
    (split; [eexists; split;
               [cbn; eauto 10
               | match goal with
                 | Hc : state.CreateBlock _ _ _ _ = _ |- _ => rewrite Hc; reflexivity
                 end]
            | repeat split]).
Qed.

(** X4. A run of [publishBlock] that does not reach [SaveBlock] leaves the
    store and the last state as they were, and submits nothing. *)
Theorem publishBlock_without_save (m : Manager) :
  count isSaveBlock (snd (publishBlock m)) = 0%nat ->
  store (snd (fst (publishBlock m))) = store m /\
  lastState (snd (fst (publishBlock m))) = lastState m /\
  count isSubmitBlock (snd (publishBlock m)) = 0%nat /\
  count isSend_HeaderOutCh (snd (publishBlock m)) = 0%nat.
Proof.
  run_publishBlock; intros Hc; try discriminate Hc; repeat split.
Qed.

Lemma loadLastCommit_loaded (m : Manager) (c : Commit.t) :
  newHeightOf m <> wrap64 (tmtypes.InitialHeight (genesis m)) ->
  store.LoadCommit (store m) (store.Height (store m)) = inl c ->
  loadLastCommit m = (Ret c, m, [EvLoadCommit (store.Height (store m))]).
Proof.
  intros Hne Hload. unfold loadLastCommit. run_monad.
  apply Z.eqb_neq in Hne. rewrite Hne, Hload. reflexivity.
Qed.

(** X5. A tick past the initial height in which every call succeeds: the
    block is created from the commit the store holds for its height, the
    manager ends with the store [UpdateState] left, the new last state and
    the DA client after the submission, and the header of the saved block
    is what goes to [HeaderOutCh], last. *)
Theorem publishBlock_steady_state (m : Manager) (lastCommit : Commit.t)
    (b : Block.t) (e1 e2 : E) (newState : State.t)
    (headerBytes sign : bytes) (st1 st2 : S)
    (res : da.ResultSubmitBlock) (d1 : D) :
  newHeightOf m <> wrap64 (tmtypes.InitialHeight (genesis m)) ->
  store.LoadCommit (store m) (store.Height (store m)) = inl lastCommit ->
  state.CreateBlock (executor m) (newHeightOf m) lastCommit (lastState m) = (b, e1) ->
  state.ApplyBlock e1 (lastState m) b = (inl newState, e2) ->
  MarshalBinary (Block.Header b) = inl headerBytes ->
  crypto.Sign (proposerKey m) headerBytes = inl sign ->
  store.SaveBlock (store m) b (commitOf b sign) = (None, st1) ->
  store.UpdateState st1 newState = (None, st2) ->
  da.SubmitBlock (dalc m) b = (res, d1) ->
  da.SubmitCode res = da.StatusSuccess ->
  publishBlock m =
    (Ret tt,
     mkManager newState (conf m) (genesis m) (proposerKey m) st2 e2 d1
               (syncTarget m) (syncCache m),
     [EvLoadCommit (store.Height (store m));
      EvLog "info" "Creating and publishing block";
      EvCreateBlock (newHeightOf m) lastCommit (lastState m);
      EvLog "debug" "block info";
      EvApplyBlock (lastState m) b;
      EvSign headerBytes;
      EvSaveBlock b (commitOf b sign);
      EvUpdateState newState;
      EvSubmitBlock b;
      EvSend_HeaderOutCh (Block.Header b)]).
Proof.
  intros Hne Hload Hcreate Happly Hmarshal Hsign Hsave Hupdate Hsubmit Hcode.
  unfold publishBlock. unfold bind at 1. unfold get at 1. cbn beta iota.
  unfold bind at 1. rewrite (loadLastCommit_loaded m lastCommit Hne Hload).
  cbn beta iota. unfold broadcastBlock. run_monad. cbn.
  rewrite Hcreate. cbn. rewrite Happly. cbn. rewrite Hmarshal. cbn.
  rewrite Hsign. cbn. fold (commitOf b sign). rewrite Hsave. cbn.
  rewrite Hupdate. cbn. rewrite Hsubmit. cbn. rewrite Hcode. reflexivity.
Qed.

(** X6. When [UpdateState] fails after the block was saved,
    [publishBlock] returns that error with the manager's last state
    already set to the new state and the store as the failed call left it;
    the block is not submitted and no header is sent. *)
Theorem publishBlock_UpdateState_failure (m : Manager) (lastCommit : Commit.t)
    (tr0 : list Event) (b : Block.t) (e1 e2 : E) (newState : State.t)
    (headerBytes sign : bytes) (st1 st2 : S) (err : error) :
  loadLastCommit m = (Ret lastCommit, m, tr0) ->
  state.CreateBlock (executor m) (newHeightOf m) lastCommit (lastState m) = (b, e1) ->
  state.ApplyBlock e1 (lastState m) b = (inl newState, e2) ->
  MarshalBinary (Block.Header b) = inl headerBytes ->
  crypto.Sign (proposerKey m) headerBytes = inl sign ->
  store.SaveBlock (store m) b (commitOf b sign) = (None, st1) ->
  store.UpdateState st1 newState = (Some err, st2) ->
  publishBlock m =
    (Fail err,
     mkManager newState (conf m) (genesis m) (proposerKey m) st2 e2 (dalc m)
               (syncTarget m) (syncCache m),
     tr0 ++
     [EvLog "info" "Creating and publishing block";
      EvCreateBlock (newHeightOf m) lastCommit (lastState m);
      EvLog "debug" "block info";
      EvApplyBlock (lastState m) b;
      EvSign headerBytes;
      EvSaveBlock b (commitOf b sign);
      EvUpdateState newState]).
Proof.
  intros Hlast Hcreate Happly Hmarshal Hsign Hsave Hupdate.
  unfold publishBlock. unfold bind at 1. unfold get at 1. cbn beta iota.
  unfold bind at 1. rewrite Hlast. cbn beta iota.
  unfold broadcastBlock. run_monad. cbn.
  rewrite Hcreate. cbn. rewrite Happly. cbn. rewrite Hmarshal. cbn.
  rewrite Hsign. cbn. fold (commitOf b sign). rewrite Hsave. cbn.
  rewrite Hupdate. reflexivity.
Qed.

(** [publishBlock] keeps the configuration and leaves the timer alone. *)
Lemma publishBlock_keeps_conf (m : Manager) :
  conf (snd (fst (publishBlock m))) = conf m /\
  count isTimerReset (snd (publishBlock m)) = 0%nat /\
  (forall msg, fst (fst (publishBlock m)) <> Panicked msg).
Proof. run_publishBlock; repeat split; discriminate. Qed.

(** A tick returns, keeps the configuration, and resets the timer once,
    to the time left of [BlockTime], whatever [publishBlock] did. *)
Lemma aggregationTick_returns (m : Manager) (elapsed : Z) :
  exists m' tr,
    aggregationTick elapsed m =
      (Ret tt, m',
       tr ++ [EvTimerReset (remainingSleep (config.BlockTime (conf m)) elapsed)]) /\
    conf m' = conf m /\
    count isTimerReset tr = 0%nat.
Proof.
  destruct (publishBlock_keeps_conf m) as [Hconf [Hc Hnp]].
  unfold aggregationTick, getRemainingSleep, catch. run_monad.
  destruct (publishBlock m) as [[[u|err|msg] m1] tr1]; cbn [fst snd] in *;
    [| |exfalso; apply (Hnp msg); reflexivity]; cbn; rewrite Hconf;
    fold (remainingSleep (config.BlockTime (conf m)) elapsed).
  - exists m1, tr1. repeat split; [exact Hconf | exact Hc].
  - exists m1, (tr1 ++ [EvLog "error" "error while publishing block"]).
    rewrite <- app_assoc. repeat split; [exact Hconf |].
    unfold count in *. rewrite List.filter_app, length_app, Hc. reflexivity.
Qed.

Lemma count_app (p : Event -> bool) (a b : list Event) :
  count p (a ++ b) = (count p a + count p b)%nat.
Proof. unfold count. rewrite List.filter_app, length_app. reflexivity. Qed.

Lemma aggregationSelect_runs (sched : list AggSelect) :
  forall m : Manager,
  fst (fst (aggregationSelect sched m)) =
    Ret (if existsb isAggCtxDone sched then Returned else Waiting) /\
  count isTimerReset (snd (aggregationSelect sched m)) = ticksTaken sched /\
  (forall d, In (EvTimerReset d) (snd (aggregationSelect sched m)) ->
     exists elapsed, In (AggTimer elapsed) sched /\
       d = remainingSleep (config.BlockTime (conf m)) elapsed).
Proof.
  induction sched as [|[|elapsed] rest IH]; intros m; cbn [aggregationSelect].
  - repeat split. intros d [].
  - repeat split. intros d [].
  - destruct (aggregationTick_returns m elapsed) as [m' [tr [Ht [Hconf Hc]]]].
    unfold bind. rewrite Ht. specialize (IH m').
    destruct (aggregationSelect rest m') as [[r m''] tr'].
    cbn [fst snd] in *. destruct IH as [Hr [Hn Hd]].
    split; [exact Hr|]. split.
    + rewrite !count_app, Hc, Hn. reflexivity.
    + intros d Hin. apply in_app_or in Hin as [Hin|Hin].
      * apply in_app_or in Hin as [Hin|Hin].
        -- exfalso. clear - Hc Hin. unfold count in Hc.
           assert (Hf : In (EvTimerReset d) (List.filter isTimerReset tr))
             by (apply List.filter_In; split; [exact Hin | reflexivity]).
           destruct (List.filter isTimerReset tr); [destruct Hf | discriminate].
        -- destruct Hin as [Hin|[]]. injection Hin as <-.
           exists elapsed. split; [left; reflexivity | reflexivity].
      * destruct (Hd d Hin) as [e [He Hde]]. exists e.
        split; [right; exact He | rewrite Hde, Hconf; reflexivity].
Qed.

(** X7. [AggregationLoop] neither panics nor returns an error, whatever
    the store, the executor, the key and the DA client answer: it returns
    when the context is done and otherwise waits for the next tick. *)
Theorem AggregationLoop_outcome (sched : list AggSelect) (m : Manager) :
  fst (fst (AggregationLoop sched m)) =
    Ret (if existsb isAggCtxDone sched then Returned else Waiting).
Proof.
  unfold AggregationLoop. run_monad.
  destruct (aggregationSelect_runs sched m) as [Hr _].
  destruct (aggregationSelect sched m) as [[r m'] tr]. exact Hr.
Qed.

(** [AggregationLoop] arms the timer once at the start and once after
    every tick taken before cancellation, whether [publishBlock] failed
    or not. *)
Theorem AggregationLoop_timer_resets (sched : list AggSelect) (m : Manager) :
  count isTimerReset (snd (AggregationLoop sched m)) =
    Datatypes.S (ticksTaken sched).
Proof.
  unfold AggregationLoop. run_monad.
  destruct (aggregationSelect_runs sched m) as [_ [Hn _]].
  destruct (aggregationSelect sched m) as [[r m'] tr]. cbn [snd] in *.
  unfold count in *. cbn. rewrite Hn. reflexivity.
Qed.

(** X8. With a non-negative [BlockTime] and non-negative publishing
    times, every duration [AggregationLoop] gives the timer lies between 0
    and [BlockTime]. *)
Theorem AggregationLoop_timer_bounds (sched : list AggSelect) (m : Manager)
    (d : Z) :
  0 <= config.BlockTime (conf m) ->
  (forall elapsed, In (AggTimer elapsed) sched -> 0 <= elapsed) ->
  In (EvTimerReset d) (snd (AggregationLoop sched m)) ->
  0 <= d <= config.BlockTime (conf m).
Proof.
  intros Hbt Hel. unfold AggregationLoop. run_monad.
  destruct (aggregationSelect_runs sched m) as [_ [_ Hd]].
  destruct (aggregationSelect sched m) as [[r m'] tr]. cbn [snd] in *.
  intros [Hin|Hin].
  - injection Hin as <-. lia.
  - destruct (Hd d Hin) as [e [He ->]]. specialize (Hel e He).
    unfold remainingSleep.
    destruct (Z.ltb_spec (config.BlockTime (conf m) - e) 0); lia.
Qed.

End AggregationMore.

(** ** Further properties of synchronisation *)

Section SyncMore.

Variables S E D K : Type.
Context `{!store.Store S} `{!state.BlockExecutor E}.

Local Abbreviation Manager := (Manager S E D K).

Ltac run_syncBlockIn := unfold syncBlockIn; run_monad; split_calls.

(** X9. Whatever [syncBlockIn] saves comes out of the two-block window:
    the block saved is the one staged at the store's height plus one, it
    was applied to the last state just before, and the commit saved with
    it is the last commit of the block staged at the store's height plus
    two. *)
Theorem syncBlockIn_saves_from_window (m : Manager) (b saved : Block.t)
    (commit : Commit.t) :
  In (EvSaveBlock saved commit) (snd (syncBlockIn b m)) ->
  exists next post,
    syncCache (stage b m) !! wrap64 (store.Height (store m) + 1) = Some saved /\
    syncCache (stage b m) !! wrap64 (store.Height (store m) + 2) = Some next /\
    commit = Block.LastCommit next /\
    snd (syncBlockIn b m) =
      [EvLog "debug" "block body retrieved from DALC";
       EvApplyBlock (lastState m) saved;
       EvSaveBlock saved commit] ++ post.
Proof.
  revert saved commit. run_syncBlockIn; intros saved commit Hin; cbn in Hin;
    repeat match goal with
    | H : _ \/ _ |- _ => destruct H as [H|H]
    | H : False |- _ => destruct H
    | H : _ = EvSaveBlock _ _ |- _ => first [discriminate H | injection H as <- <-]
    end;
    eexists _, _; repeat split; eassumption.
Qed.

(** X10. [syncBlockIn] takes no entry out of the staging cache other than
    the one at the store's height plus one: at every other height the
    cache is the cache with [b] staged. *)
Theorem syncBlockIn_keeps_other_heights (m : Manager) (b : Block.t) (k : Z) :
  k <> wrap64 (store.Height (store m) + 1) ->
  syncCache (snd (fst (syncBlockIn b m))) !! k = syncCache (stage b m) !! k.
Proof.
  intros Hk. run_syncBlockIn; try reflexivity.
  apply lookup_delete_ne. congruence.
Qed.

(** X11. When [ApplyBlock] fails, [syncBlockIn] logs and returns: the
    store and the last state are untouched, no block is saved, and the
    cache keeps every staged block, the failed one included. *)
Theorem syncBlockIn_ApplyBlock_failure (m : Manager) (b b1 b2 : Block.t)
    (err : error) (e1 : E) :
  syncCache (stage b m) !! wrap64 (store.Height (store m) + 1) = Some b1 ->
  syncCache (stage b m) !! wrap64 (store.Height (store m) + 2) = Some b2 ->
  state.ApplyBlock (executor m) (lastState m) b1 = (inr err, e1) ->
  syncBlockIn b m =
    (Ret tt, set_executor e1 (stage b m),
     [EvLog "debug" "block body retrieved from DALC";
      EvApplyBlock (lastState m) b1;
      EvLog "error" "failed to ApplyBlock"]).
Proof.
  intros H1 H2 Happly. unfold stage in H1, H2. cbn in H1, H2.
  unfold syncBlockIn. run_monad. cbn. rewrite H1, H2. cbn.
  rewrite Happly. reflexivity.
Qed.

(** X12. When [SaveBlock] fails, the block has been applied by the
    executor but the manager keeps its old last state; the cache keeps the
    block, so the next inbound block applies it again. *)
Theorem syncBlockIn_SaveBlock_failure (m : Manager) (b b1 b2 : Block.t)
    (newState : State.t) (err : error) (e1 : E) (st1 : S) :
  syncCache (stage b m) !! wrap64 (store.Height (store m) + 1) = Some b1 ->
  syncCache (stage b m) !! wrap64 (store.Height (store m) + 2) = Some b2 ->
  state.ApplyBlock (executor m) (lastState m) b1 = (inl newState, e1) ->
  store.SaveBlock (store m) b1 (Block.LastCommit b2) = (Some err, st1) ->
  syncBlockIn b m =
    (Ret tt, set_store st1 (set_executor e1 (stage b m)),
     [EvLog "debug" "block body retrieved from DALC";
      EvApplyBlock (lastState m) b1;
      EvSaveBlock b1 (Block.LastCommit b2);
      EvLog "error" "failed to save block"]).
Proof.
  intros H1 H2 Happly Hsave. unfold stage in H1, H2. cbn in H1, H2.
  unfold syncBlockIn. run_monad. cbn. rewrite H1, H2. cbn.
  rewrite Happly. cbn. rewrite Hsave. reflexivity.
Qed.

(** X13. When [UpdateState] fails after the block was saved, the manager
    already holds the new last state and the saved block stays in the
    cache: its height is not deleted. *)
Theorem syncBlockIn_UpdateState_failure (m : Manager) (b b1 b2 : Block.t)
    (newState : State.t) (err : error) (e1 : E) (st1 st2 : S) :
  syncCache (stage b m) !! wrap64 (store.Height (store m) + 1) = Some b1 ->
  syncCache (stage b m) !! wrap64 (store.Height (store m) + 2) = Some b2 ->
  state.ApplyBlock (executor m) (lastState m) b1 = (inl newState, e1) ->
  store.SaveBlock (store m) b1 (Block.LastCommit b2) = (None, st1) ->
  store.UpdateState st1 newState = (Some err, st2) ->
  syncBlockIn b m =
    (Ret tt,
     set_store st2 (set_lastState newState (set_executor e1 (stage b m))),
     [EvLog "debug" "block body retrieved from DALC";
      EvApplyBlock (lastState m) b1;
      EvSaveBlock b1 (Block.LastCommit b2);
      EvUpdateState newState;
      EvLog "error" "failed to save updated state"]) /\
  syncCache (snd (fst (syncBlockIn b m))) !! wrap64 (store.Height (store m) + 1)
    = Some b1.
Proof.
  intros H1 H2 Happly Hsave Hupdate.
  assert (Hrun : syncBlockIn b m =
    (Ret tt,
     set_store st2 (set_lastState newState (set_executor e1 (stage b m))),
     [EvLog "debug" "block body retrieved from DALC";
      EvApplyBlock (lastState m) b1;
      EvSaveBlock b1 (Block.LastCommit b2);
      EvUpdateState newState;
      EvLog "error" "failed to save updated state"])).
  { unfold stage in H1, H2. cbn in H1, H2.
    unfold syncBlockIn. run_monad. cbn. rewrite H1, H2. cbn.
    rewrite Happly. cbn. rewrite Hsave. cbn. rewrite Hupdate. reflexivity. }
  split; [exact Hrun|]. rewrite Hrun. exact H1.
Qed.

(** The handler on a staged pair when every call succeeds. *)
Lemma syncBlockIn_pair_run (m : Manager) (b b1 b2 : Block.t)
    (newState : State.t) (e1 : E) (st1 st2 : S) :
  syncCache (stage b m) !! wrap64 (store.Height (store m) + 1) = Some b1 ->
  syncCache (stage b m) !! wrap64 (store.Height (store m) + 2) = Some b2 ->
  state.ApplyBlock (executor m) (lastState m) b1 = (inl newState, e1) ->
  store.SaveBlock (store m) b1 (Block.LastCommit b2) = (None, st1) ->
  store.UpdateState st1 newState = (None, st2) ->
  syncBlockIn b m =
    (Ret tt,
     mkManager newState (conf m) (genesis m) (proposerKey m) st2 e1 (dalc m)
               (syncTarget m)
               (delete (wrap64 (store.Height (store m) + 1))
                       (syncCache (stage b m))),
     [EvLog "debug" "block body retrieved from DALC";
      EvApplyBlock (lastState m) b1;
      EvSaveBlock b1 (Block.LastCommit b2);
      EvUpdateState newState]).
Proof.
  intros H1 H2 Happly Hsave Hupdate. unfold stage in *. cbn in H1, H2.
  unfold syncBlockIn. run_monad. cbn. rewrite H1, H2. cbn.
  rewrite Happly. cbn. rewrite Hsave. cbn. rewrite Hupdate. reflexivity.
Qed.

(** The handler on a header above the store's height. *)
Lemma syncHeaderIn_above (m : Manager) (header : Header.t) :
  store.Height (store m) < Header.Height header ->
  syncHeaderIn header m =
    (Ret tt, set_syncTarget (Header.Height header) m,
     [EvLog "debug" "block header received";
      EvSend_retrieveCh (Header.Height header)]).
Proof.
  intros Hlt. unfold syncHeaderIn. run_monad.
  apply Z.ltb_lt in Hlt. rewrite Hlt. reflexivity.
Qed.

Lemma wrap64_succ_ne (h : Z) : wrap64 (h + 1) <> wrap64 (h + 2).
Proof.
  unfold wrap64. intros Heq.
  assert (Hd : ((h + 2) - (h + 1)) mod uint64_modulus = 0).
  { rewrite Zminus_mod, <- Heq, Z.sub_diag. reflexivity. }
  replace (h + 2 - (h + 1)) with 1 in Hd by lia.
  discriminate Hd.
Qed.

Lemma syncBlockIn_on_empty_cache (m : Manager) (b : Block.t) :
  syncCache m = ∅ ->
  syncBlockIn b m =
    (Ret tt, stage b m, [EvLog "debug" "block body retrieved from DALC"]).
Proof.
  intros Hempty. apply syncBlockIn_waits.
  unfold pairStaged, stage. cbn. rewrite Hempty.
  pose proof (wrap64_succ_ne (store.Height (store m))) as Hne.
  destruct (decide (Header.Height (Block.Header b) =
                    wrap64 (store.Height (store m) + 1))) as [Heq|Hn1].
  - rewrite Heq, lookup_insert_eq, lookup_insert_ne, lookup_empty by exact Hne.
    reflexivity.
  - rewrite (lookup_insert_ne _ _ _ _ Hn1), lookup_empty. reflexivity.
Qed.

(** X14. On an empty staging cache an inbound block is staged and nothing
    else happens: no block is ever applied on the arrival of the first
    one. *)
Theorem syncBlockIn_first_block_waits (m : Manager) (b : Block.t) :
  syncCache m = ∅ ->
  syncBlockIn b m =
    (Ret tt, stage b m, [EvLog "debug" "block body retrieved from DALC"]).
Proof. apply syncBlockIn_on_empty_cache. Qed.

(** X15. Two blocks arriving in order at an empty cache, the first for the
    store's height plus one and the second for the height after: the first
    arrival only stages; the second applies the first block, saves it with
    the second block's last commit and stores the new state, and the
    second block is what stays staged. *)
Theorem SyncLoop_two_blocks_in_order (m : Manager) (b1 b2 : Block.t)
    (newState : State.t) (e1 : E) (st1 st2 : S) :
  syncCache m = ∅ ->
  Header.Height (Block.Header b1) = wrap64 (store.Height (store m) + 1) ->
  Header.Height (Block.Header b2) = wrap64 (store.Height (store m) + 2) ->
  state.ApplyBlock (executor m) (lastState m) b1 = (inl newState, e1) ->
  store.SaveBlock (store m) b1 (Block.LastCommit b2) = (None, st1) ->
  store.UpdateState st1 newState = (None, st2) ->
  SyncLoop [SyncBlockIn b1; SyncBlockIn b2] m =
    (Ret Waiting,
     mkManager newState (conf m) (genesis m) (proposerKey m) st2 e1 (dalc m)
               (syncTarget m)
               {[wrap64 (store.Height (store m) + 2) := b2]},
     [EvLog "debug" "block body retrieved from DALC";
      EvLog "debug" "block body retrieved from DALC";
      EvApplyBlock (lastState m) b1;
      EvSaveBlock b1 (Block.LastCommit b2);
      EvUpdateState newState]).
Proof.
  intros Hempty Hh1 Hh2 Happly Hsave Hupdate.
  pose proof (wrap64_succ_ne (store.Height (store m))) as Hne.
  cbn [SyncLoop]. unfold bind at 1.
  rewrite (syncBlockIn_on_empty_cache m b1 Hempty). cbn beta iota.
  unfold bind at 1.
  rewrite (syncBlockIn_pair_run (stage b1 m) b2 b1 b2 newState e1 st1 st2).
  - unfold ret. cbn. rewrite Hempty, Hh1, Hh2.
    rewrite delete_insert_ne by congruence.
    rewrite delete_insert_eq, delete_empty. reflexivity.
  - cbn. rewrite Hempty, Hh1, Hh2.
    rewrite lookup_insert_ne by congruence. apply lookup_insert_eq.
  - cbn. rewrite Hh2. apply lookup_insert_eq.
  - exact Happly.
  - exact Hsave.
  - exact Hupdate.
Qed.

Lemma syncBlockIn_returns (m : Manager) (b : Block.t) :
  fst (fst (syncBlockIn b m)) = Ret tt.
Proof. run_syncBlockIn; reflexivity. Qed.

Lemma syncHeaderIn_returns (m : Manager) (header : Header.t) :
  fst (fst (syncHeaderIn header m)) = Ret tt /\
  count isSaveBlock (snd (syncHeaderIn header m)) = 0%nat.
Proof.
  unfold syncHeaderIn. run_monad. split_calls; split; reflexivity.
Qed.

Lemma SyncLoop_runs (sched : list SyncSelect) :
  forall m : Manager,
  fst (fst (SyncLoop sched m)) =
    Ret (if existsb isSyncCtxDone sched then Returned else Waiting) /\
  (count isSaveBlock (snd (SyncLoop sched m)) <=
     length (List.filter isSyncBlockIn (handled sched)))%nat.
Proof.
  induction sched as [|[header|b|] rest IH]; intros m; cbn [SyncLoop].
  - split; [reflexivity | cbn; lia].
  - destruct (syncHeaderIn_returns m header) as [Hr Hc].
    unfold bind. destruct (syncHeaderIn header m) as [[r m1] tr1].
    cbn [fst snd] in *. subst r. specialize (IH m1).
    destruct (SyncLoop rest m1) as [[r2 m2] tr2]. cbn [fst snd] in *.
    destruct IH as [Hr2 Hc2]. split; [exact Hr2|].
    unfold count in *. rewrite List.filter_app, length_app. cbn. lia.
  - pose proof (syncBlockIn_returns m b) as Hr.
    pose proof (syncBlockIn_saves_at_most_once _ _ _ _ m b) as Hc.
    unfold bind. destruct (syncBlockIn b m) as [[r m1] tr1].
    cbn [fst snd] in *. subst r. specialize (IH m1).
    destruct (SyncLoop rest m1) as [[r2 m2] tr2]. cbn [fst snd] in *.
    destruct IH as [Hr2 Hc2]. split; [exact Hr2|].
    unfold count in *. rewrite List.filter_app, length_app. cbn. lia.
  - split; [reflexivity | cbn; lia].
Qed.

(** X16. [SyncLoop] neither panics nor returns an error, whatever the
    executor and the store answer: it returns when the context is done and
    otherwise waits for the next reception. *)
Theorem SyncLoop_outcome (sched : list SyncSelect) (m : Manager) :
  fst (fst (SyncLoop sched m)) =
    Ret (if existsb isSyncCtxDone sched then Returned else Waiting).
Proof. apply SyncLoop_runs. Qed.

(** X17. [SyncLoop] saves at most one block for each block it receives
    before cancellation; headers lead to no save. *)
Theorem SyncLoop_saves_at_most_one_per_block (sched : list SyncSelect)
    (m : Manager) :
  (count isSaveBlock (snd (SyncLoop sched m)) <=
     length (List.filter isSyncBlockIn (handled sched)))%nat.
Proof. apply SyncLoop_runs. Qed.

(** X18. After any run of inbound headers, a header above the store's
    height leaves [syncTarget] at its own height, whatever was announced
    before, and nothing but [syncTarget] has changed in the manager. *)
Theorem SyncLoop_last_header_sets_target (headers : list Header.t)
    (header : Header.t) :
  forall m : Manager,
  store.Height (store m) < Header.Height header ->
  snd (fst (SyncLoop (map SyncHeaderIn headers ++ [SyncHeaderIn header]) m)) =
    set_syncTarget (Header.Height header) m.
Proof.
  induction headers as [|h0 rest IH]; intros m Hlt.
  - cbn [map app SyncLoop]. unfold bind.
    rewrite (syncHeaderIn_above m header Hlt). reflexivity.
  - cbn [map app SyncLoop]. unfold bind.
    assert (Hm : exists t, snd (fst (syncHeaderIn h0 m)) = set_syncTarget t m
                           /\ fst (fst (syncHeaderIn h0 m)) = Ret tt).
    { unfold syncHeaderIn. run_monad. split_calls;
        [exists (Header.Height h0) | exists (syncTarget m)];
        (split; [|reflexivity]); destruct m; reflexivity. }
    destruct Hm as [t [Hm Hr]].
    destruct (syncHeaderIn h0 m) as [[r m1] tr1]. cbn [fst snd] in *.
    subst r m1.
    specialize (IH (set_syncTarget t m) Hlt).
    destruct (SyncLoop _ (set_syncTarget t m)) as [[r2 m2] tr2].
    cbn [fst snd] in *. exact IH.
Qed.

End SyncMore.

(** ** Further properties of retrieval *)

Section RetrievalMore.

Variables S E D K : Type.
Context `{!store.Store S} `{!da.BlockRetriever D}.

Local Abbreviation Manager := (Manager S E D K).

(** How the rounds of [mustRetrieveBlock] can go. *)
Lemma retrieveRounds_shape (n : nat) :
  forall (m : Manager) (height : Z),
  exists (k : nat) (d : D),
    ((k < n)%nat /\
     exists ob,
       retrieveRounds n height m =
         (Ret tt, set_dalc d m,
          failedRounds height k ++
            [EvRetrieveBlock height; EvSend_blockInCh ob])) \/
    (k = n /\
     retrieveRounds n height m =
       (Panicked "failed to retrieve block with DALC", set_dalc d m,
        failedRounds height n)).
Proof.
  induction n as [|n IH]; intros m height; cbn [retrieveRounds].
  - exists 0%nat, (dalc m). right. split; [reflexivity|].
    unfold panic. rewrite set_dalc_same. reflexivity.
  - unfold fetchBlock. run_monad.
    destruct (da.RetrieveBlock (dalc m) height) as [r d1] eqn:Hr. cbn.
    destruct (da.Code r) eqn:Hc; cbn.
    + exists 0%nat, d1. left. split; [lia|]. eexists. reflexivity.
    + destruct (IH (set_dalc d1 m) height) as [k [d [[Hk [ob Hrun]]|[Hk Hrun]]]];
        exists (Datatypes.S k), d; [left | right];
        (split; [lia|]); try exists ob; rewrite Hrun; subst; reflexivity.
    + destruct (IH (set_dalc d1 m) height) as [k [d [[Hk [ob Hrun]]|[Hk Hrun]]]];
        exists (Datatypes.S k), d; [left | right];
        (split; [lia|]); try exists ob; rewrite Hrun; subst; reflexivity.
Qed.

Lemma mustRetrieveBlock_rounds (m : Manager) (height : Z) :
  exists (k : nat) (d : D),
    ((k < 10)%nat /\
     exists ob,
       mustRetrieveBlock height m =
         (Ret tt, set_dalc d m,
          failedRounds height k ++
            [EvRetrieveBlock height; EvSend_blockInCh ob])) \/
    (k = 10%nat /\
     mustRetrieveBlock height m =
       (Panicked "failed to retrieve block with DALC", set_dalc d m,
        failedRounds height 10)).
Proof.
  unfold mustRetrieveBlock, maxRetries. change (Z.to_nat 10) with 10%nat.
  apply retrieveRounds_shape.
Qed.

(** X19. Whatever the DA client answers, [mustRetrieveBlock] either
    returns after fewer than 10 failed rounds and one successful call,
    having sent one block to [blockInCh], or panics after exactly 10
    failed rounds; it asks for the given height only and changes nothing
    in the manager but the DA client. *)
Theorem mustRetrieveBlock_shape (m : Manager) (height : Z) :
  exists (k : nat) (d : D),
    ((k < 10)%nat /\
     exists ob,
       mustRetrieveBlock height m =
         (Ret tt, set_dalc d m,
          failedRounds height k ++
            [EvRetrieveBlock height; EvSend_blockInCh ob])) \/
    (k = 10%nat /\
     mustRetrieveBlock height m =
       (Panicked "failed to retrieve block with DALC", set_dalc d m,
        failedRounds height 10)).
Proof.
  unfold mustRetrieveBlock, maxRetries. change (Z.to_nat 10) with 10%nat.
  apply retrieveRounds_shape.
Qed.

Lemma failedRounds_requests (height h' : Z) (k : nat) :
  In (EvRetrieveBlock h') (failedRounds height k) -> h' = height.
Proof.
  unfold failedRounds. induction k as [|k IH]; cbn; [intros []|].
  intros [Heq|[Heq|Hin]]; [congruence | discriminate | exact (IH Hin)].
Qed.

Lemma failedRounds_sends (height : Z) (k : nat) :
  count isSend_blockInCh (failedRounds height k) = 0%nat.
Proof.
  unfold count, failedRounds. induction k as [|k IH]; [reflexivity|].
  cbn. exact IH.
Qed.

(** What a call of [mustRetrieveBlock] contributes to a retrieval. *)
Lemma mustRetrieveBlock_summary (m : Manager) (height : Z) :
  exists d,
    snd (fst (mustRetrieveBlock height m)) = set_dalc d m /\
    (forall h', In (EvRetrieveBlock h') (snd (mustRetrieveBlock height m)) ->
       h' = height) /\
    match fst (fst (mustRetrieveBlock height m)) with
    | Ret _ => count isSend_blockInCh (snd (mustRetrieveBlock height m)) = 1%nat
    | Fail _ => False
    | Panicked _ =>
        count isSend_blockInCh (snd (mustRetrieveBlock height m)) = 0%nat
    end.
Proof.
  destruct (mustRetrieveBlock_rounds m height)
    as [k [d [[Hk [ob Hrun]]|[Hk Hrun]]]]; exists d; rewrite Hrun; cbn [fst snd].
  - split; [reflexivity|]. split.
    + intros h' Hin. apply in_app_or in Hin as [Hin|Hin].
      * exact (failedRounds_requests _ _ _ Hin).
      * destruct Hin as [Heq|[Heq|[]]]; [congruence | discriminate].
    + unfold count. rewrite List.filter_app, length_app.
      fold (count isSend_blockInCh (failedRounds height k)).
      rewrite failedRounds_sends. reflexivity.
  - split; [reflexivity|]. split.
    + intros h' Hin. exact (failedRounds_requests _ _ _ Hin).
    + apply failedRounds_sends.
Qed.

Lemma wrap64_succ_below (h target : Z) :
  0 <= h -> h <= target -> target < uint64_modulus - 1 ->
  wrap64 (h + 1) = h + 1.
Proof.
  intros Hnn Hle Ht. unfold wrap64. apply Z.mod_small. lia.
Qed.

(** The [for] loop of [RetrieveLoop], one round unfolded. *)
Lemma retrieveUpTo_step (fuel : nat) (h target : Z) (m : Manager) :
  h <= target ->
  retrieveUpTo (Datatypes.S fuel) h target m =
    match mustRetrieveBlock h m with
    | (Ret _, m1, t1) =>
        (fst (fst (retrieveUpTo fuel (wrap64 (h + 1)) target m1)),
         snd (fst (retrieveUpTo fuel (wrap64 (h + 1)) target m1)),
         EvLog "debug" "trying to retrieve block from DALC"
           :: t1 ++ snd (retrieveUpTo fuel (wrap64 (h + 1)) target m1))
    | (Fail e, m1, t1) =>
        (Fail e, m1, EvLog "debug" "trying to retrieve block from DALC" :: t1)
    | (Panicked msg, m1, t1) =>
        (Panicked msg, m1,
         EvLog "debug" "trying to retrieve block from DALC" :: t1)
    end.
Proof.
  intros Hle. cbn [retrieveUpTo]. apply Z.leb_le in Hle. rewrite Hle.
  run_monad. destruct (mustRetrieveBlock h m) as [[[u|e|msg] m1] t1];
    cbn; try reflexivity.
  destruct (retrieveUpTo fuel (wrap64 (h + 1)) target m1) as [[r m2] t2].
  reflexivity.
Qed.

Lemma retrieveUpTo_past (fuel : nat) (h target : Z) (m : Manager) :
  target < h ->
  retrieveUpTo (Datatypes.S fuel) h target m = (Ret ForDone, m, []).
Proof.
  intros Hlt. cbn [retrieveUpTo]. apply Z.leb_gt in Hlt. rewrite Hlt.
  reflexivity.
Qed.

(** X20. With a target below the largest [uint64], the [for] loop of
    [RetrieveLoop] asks the DA client only for heights from its first
    height up to the target. *)
Theorem retrieveUpTo_requests_in_range (fuel : nat) :
  forall (h target : Z) (m : Manager) (h' : Z),
  0 <= h -> target < uint64_modulus - 1 ->
  In (EvRetrieveBlock h') (snd (retrieveUpTo fuel h target m)) ->
  h <= h' <= target.
Proof.
  induction fuel as [|fuel IH]; intros h target m h' Hnn Ht Hin.
  - destruct Hin.
  - destruct (Z.le_gt_cases h target) as [Hle|Hgt].
    + rewrite (retrieveUpTo_step fuel h target m Hle) in Hin.
      destruct (mustRetrieveBlock_summary m h) as [d [_ [Hreq _]]].
      destruct (mustRetrieveBlock h m) as [[[u|e|msg] m1] t1];
        cbn [fst snd] in *;
        (destruct Hin as [Hin|Hin]; [discriminate|]);
        try (rewrite (Hreq h' Hin); lia).
      apply in_app_or in Hin as [Hin|Hin]; [rewrite (Hreq h' Hin); lia|].
      rewrite (wrap64_succ_below h target Hnn Hle Ht) in Hin.
      specialize (IH (h + 1) target m1 h' ltac:(lia) Ht Hin). lia.
    + rewrite (retrieveUpTo_past fuel h target m Hgt) in Hin. destruct Hin.
Qed.

(** X21. With a target below the largest [uint64] and rounds to spare,
    the [for] loop of [RetrieveLoop] does not stay running: it ends past
    the target having sent one block to [blockInCh] for each height from
    the first to the target, or it panics having sent fewer. *)
Theorem retrieveUpTo_completes (fuel : nat) :
  forall (h target : Z) (m : Manager),
  0 <= h -> h <= target + 1 -> target < uint64_modulus - 1 ->
  (Z.to_nat (target - h + 1) < fuel)%nat ->
  match fst (fst (retrieveUpTo fuel h target m)) with
  | Ret ForDone =>
      count isSend_blockInCh (snd (retrieveUpTo fuel h target m)) =
        Z.to_nat (target - h + 1)
  | Ret ForRunning => False
  | Fail _ => False
  | Panicked _ =>
      (count isSend_blockInCh (snd (retrieveUpTo fuel h target m)) <
         Z.to_nat (target - h + 1))%nat
  end.
Proof.
  induction fuel as [|fuel IH]; intros h target m Hnn Hle1 Ht Hfuel; [lia|].
  destruct (Z.le_gt_cases h target) as [Hle|Hgt].
  - rewrite (retrieveUpTo_step fuel h target m Hle).
    destruct (mustRetrieveBlock_summary m h) as [d [_ [_ Hsend]]].
    destruct (mustRetrieveBlock h m) as [[[u|e|msg] m1] t1];
      cbn [fst snd] in *; [|destruct Hsend|].
    + rewrite (wrap64_succ_below h target Hnn Hle Ht).
      specialize (IH (h + 1) target m1 ltac:(lia) ltac:(lia) Ht ltac:(lia)).
      replace (Z.to_nat (target - h + 1))
        with (Datatypes.S (Z.to_nat (target - (h + 1) + 1))) by lia.
      destruct (retrieveUpTo fuel (h + 1) target m1) as [[[[|]|e|msg] m2] t2];
        cbn [fst snd] in *; try exact IH;
        unfold count in *; cbn; rewrite List.filter_app, length_app; lia.
    + unfold count in *. cbn. lia.
  - rewrite (retrieveUpTo_past fuel h target m Hgt). cbn. unfold count. cbn. lia.
Qed.

Lemma retrieveUpTo_only_dalc (fuel : nat) :
  forall (h target : Z) (m : Manager),
  exists d, snd (fst (retrieveUpTo fuel h target m)) = set_dalc d m.
Proof.
  induction fuel as [|fuel IH]; intros h target m.
  - exists (dalc m). cbn. rewrite set_dalc_same. reflexivity.
  - destruct (Z.le_gt_cases h target) as [Hle|Hgt].
    + rewrite (retrieveUpTo_step fuel h target m Hle).
      destruct (mustRetrieveBlock_summary m h) as [d [Hm _]].
      destruct (mustRetrieveBlock h m) as [[[u|e|msg] m1] t1];
        cbn [fst snd] in *; subst m1; try (exists d; reflexivity).
      destruct (IH (wrap64 (h + 1)) target (set_dalc d m)) as [d2 Hd2].
      exists d2. rewrite Hd2. reflexivity.
    + rewrite (retrieveUpTo_past fuel h target m Hgt).
      exists (dalc m). cbn. rewrite set_dalc_same. reflexivity.
Qed.

(** X22. [RetrieveLoop] never writes to the manager's store, staging
    cache, last state or sync target: after any run the manager differs
    from the one it started with in the DA client at most. *)
Theorem RetrieveLoop_only_changes_dalc (fuel : nat)
    (sched : list RetrieveSelect) :
  forall m : Manager,
  exists d, snd (fst (RetrieveLoop fuel sched m)) = set_dalc d m.
Proof.
  induction sched as [|[sent|] rest IH]; intros m; cbn [RetrieveLoop].
  - exists (dalc m). cbn. rewrite set_dalc_same. reflexivity.
  - unfold retrieveSignal. run_monad.
    destruct (retrieveUpTo_only_dalc fuel
                (wrap64 (store.Height (store m) + 1)) (syncTarget m) m)
      as [d Hd].
    destruct (retrieveUpTo fuel _ (syncTarget m) m) as [[[[|]|e|msg] m1] t1];
      cbn [fst snd] in *; subst m1; try (exists d; reflexivity).
    destruct (IH (set_dalc d m)) as [d2 Hd2].
    destruct (RetrieveLoop fuel rest (set_dalc d m)) as [[r2 m2] t2].
    cbn [fst snd] in *. exists d2. exact Hd2.
  - exists (dalc m). cbn. rewrite set_dalc_same. reflexivity.
Qed.

(** X23. A header above the store's height followed by a retrieve signal:
    when the DA client fails ten times for the height after the store's,
    the retrieve loop panics, whatever the height announced. *)
Theorem announced_block_unavailable_panics (m : Manager) (header : Header.t)
    (fuel : nat) :
  store.Height (store m) < Header.Height header ->
  Header.Height header < uint64_modulus ->
  (forall i, (i < 10)%nat ->
     da.Code (answer (dalc m) (store.Height (store m) + 1) i)
       <> da.StatusSuccess) ->
  fst (fst (retrieveSignal (Datatypes.S fuel)
              (snd (fst (syncHeaderIn header m))))) =
    Panicked "failed to retrieve block with DALC".
Proof.
  intros Hlt Hu Hfail.
  rewrite (syncHeaderIn_above _ _ _ _ m header Hlt). cbn [fst snd].
  unfold retrieveSignal. run_monad. cbn [store syncTarget set_syncTarget].
  pose proof (store.Height_uint64 (store m)) as Hh.
  assert (Hw : wrap64 (store.Height (store m) + 1) = store.Height (store m) + 1).
  { unfold wrap64. apply Z.mod_small. lia. }
  rewrite Hw.
  assert (Hle : store.Height (store m) + 1 <= Header.Height header) by lia.
  rewrite (retrieveUpTo_step fuel _ _ _ Hle).
  unfold mustRetrieveBlock, maxRetries. change (Z.to_nat 10) with 10%nat.
  rewrite (retrieveRounds_exhausted _ _ _ _ 10
             (set_syncTarget (Header.Height header) m)
             (store.Height (store m) + 1) Hfail).
  reflexivity.
Qed.

End RetrievalMore.

(** ** Properties of construction *)

Section Construction.

Variables S E D D' K Mp Px : Type.
Context `{!store.Store S} `{!state.BlockExecutor E}
        `{!da.DataAvailabilityLayerClient D} `{!da.BlockRetriever D}
        `{!da.DataAvailabilityLayerClient D'}
        `{!wiring.StateLoader S} `{!wiring.GenesisState}
        `{!wiring.ExecutorFactory E Mp Px} `{!wiring.PublicKey K}.

(** X24. [NewManager] starts from the stored state whenever [LoadState]
    succeeds and from the genesis state whenever it fails, whatever the
    store's error is. It returns the genesis error or the error of the
    proposer key, the former first, and it panics exactly when both were
    obtained and the client handed over is no [da.BlockRetriever]. The
    manager it returns holds the client that was handed over, an executor
    made from the raw public key and the namespace, an empty staging cache
    and a zero sync target; so it only stages the first block it receives,
    and a retrieve signal that comes before any header asks the DA client
    for nothing unless the store's height is the largest [uint64]. *)
Theorem NewManager_result (proposerKey : K) (conf : config.BlockManagerConfig)
    (genesis : tmtypes.GenesisDoc) (st : S) (mempool : Mp) (proxyApp : Px)
    (client : wiring.Client D D') :
  match NewManager proposerKey conf genesis st mempool proxyApp client with
  | Ret m =>
      (match wiring.LoadState st with
       | inl s => lastState m = s
       | inr _ => wiring.NewFromGenesisDoc genesis = inl (lastState m)
       end) /\
      (exists proposerAddress,
         wiring.GetPublicRaw proposerKey = inl proposerAddress /\
         executor m =
           wiring.NewBlockExecutor proposerAddress (config.NamespaceID conf)
                                   mempool proxyApp) /\
      client = wiring.RetrievingClient (dalc m) /\
      m = mkManager (lastState m) conf genesis proposerKey st (executor m)
                    (dalc m) 0 ∅ /\
      (forall b : Block.t,
         syncBlockIn b m =
           (Ret tt, stage b m, [EvLog "debug" "block body retrieved from DALC"])) /\
      (store.Height st < uint64_modulus - 1 ->
       forall fuel : nat,
         retrieveSignal (Datatypes.S fuel) m = (Ret ForDone, m, []))
  | Fail err =>
      match wiring.LoadState st, wiring.NewFromGenesisDoc genesis with
      | inr _, inr genesisErr => err = genesisErr
      | _, _ => wiring.GetPublicRaw proposerKey = inr err
      end
  | Panicked _ =>
      (exists s, getInitialState st genesis = inl s) /\
      (exists proposerAddress,
         wiring.GetPublicRaw proposerKey = inl proposerAddress) /\
      wiring.asBlockRetriever client = None
  end.
Proof.
  unfold NewManager.
  destruct (getInitialState st genesis) as [s|e0] eqn:Hstate.
  - destruct (wiring.GetPublicRaw proposerKey) as [addr|ke] eqn:Hkey.
    + destruct client as [|d|d']; cbn [wiring.asBlockRetriever].
      * split; [eauto|]. split; [eauto|]. reflexivity.
      * split.
        { unfold getInitialState in Hstate. cbn [lastState].
          destruct (wiring.LoadState st) as [s0|e0]; congruence. }
        split; [eauto|]. split; [reflexivity|]. split; [reflexivity|].
        split.
        { intros b. apply syncBlockIn_on_empty_cache. reflexivity. }
        intros Hbelow fuel. unfold retrieveSignal. run_monad. cbn.
        pose proof (store.Height_uint64 st) as Hh.
        unfold wrap64. rewrite Z.mod_small by lia.
        destruct (Z.leb_spec (store.Height st + 1) 0) as [Hle|_]; [lia|].
        reflexivity.
      * split; [eauto|]. split; [eauto|]. reflexivity.
    + unfold getInitialState in Hstate.
      destruct (wiring.LoadState st) as [s0|e1]; [reflexivity|].
      destruct (wiring.NewFromGenesisDoc genesis); [reflexivity | discriminate].
  - unfold getInitialState in Hstate.
    destruct (wiring.LoadState st) as [s0|e1]; [discriminate|].
    destruct (wiring.NewFromGenesisDoc genesis); congruence.
Qed.

End Construction.

(** ** Properties of the test helpers *)

Section TestHelpers.

Import testutil.

Variables R PK PUB : Type.
Context `{!Random R} `{!Ed25519 R PK PUB} `{!HeaderCodec}.
Variable InitStateVersion : Version.t.

(** [int64(uint64(x))] gives [x] back. *)
Lemma toInt64_wrap64 (x : Z) :
  - int64_modulus_half <= x < int64_modulus_half -> toInt64 (wrap64 x) = x.
Proof.
  unfold toInt64, wrap64, int64_modulus_half, uint64_modulus. intros Hx.
  rewrite Zplus_mod_idemp_l. rewrite Z.mod_small by lia. lia.
Qed.

(** What [makeslice_panics] tests. *)
Lemma makeslice_panics_spec (elemSize len : Z) :
  makeslice_panics elemSize len = true <->
  len < 0 \/ maxAlloc < elemSize * len.
Proof.
  unfold makeslice_panics. rewrite orb_true_iff, !Z.ltb_lt. reflexivity.
Qed.

Lemma makeslice_granted (elemSize len : Z) :
  0 <= len -> elemSize * len <= maxAlloc ->
  makeslice_panics elemSize len = false.
Proof.
  intros Hn Hsize. apply not_true_is_false. rewrite makeslice_panics_spec. lia.
Qed.

Lemma GetRandomBytes_length (n : Z) (r : R) :
  0 <= n <= 199 ->
  exists bs r',
    GetRandomBytes n r = (Ret bs, r') /\ length bs = Z.to_nat n.
Proof.
  intros Hn. unfold GetRandomBytes, draw.
  rewrite makeslice_granted by (unfold maxAlloc; lia).
  pose proof (Read_length r (Z.to_nat n)) as Hlen.
  destruct (Read r (Z.to_nat n)) as [bs r']. exists bs, r'.
  split; [reflexivity | exact Hlen].
Qed.

Lemma GetRandomTx_length (r : R) :
  exists tx r',
    GetRandomTx r = (Ret tx, r') /\ (100 <= length tx < 200)%nat.
Proof.
  unfold GetRandomTx, gbind, draw.
  pose proof (Int_range r) as Hi. destruct (Int r) as [i r1]. cbn in Hi.
  pose proof (Z.mod_pos_bound i 100 ltac:(lia)) as Hm.
  destruct (GetRandomBytes_length (i mod 100 + 100) r1 ltac:(lia))
    as [tx [r' [Heq Hlen]]].
  exists tx, r'. split; [exact Heq | lia].
Qed.

(** The header [GetRandomHeader] returns. *)
Lemma GetRandomHeader_fields (r : R) :
  exists h r',
    GetRandomHeader InitStateVersion r = (Ret h, r') /\
    Header.Height h = fst (Int63 r) /\
    BaseHeader.Time (Header.BaseHeader h) = wrap64 (fst (UnixNano (snd (Int63 r)))) /\
    Header.ChainID h = TestChainID /\
    Header.Version h = InitStateVersion /\
    Forall (fun x => length x = 32%nat)
      [Header.LastHeaderHash h; Header.LastCommitHash h; Header.DataHash h;
       Header.ConsensusHash h; Header.AppHash h; Header.LastResultsHash h;
       Header.ProposerAddress h; Header.AggregatorsHash h] /\
    Header.NextAggregatorsHash h = [].
Proof.
  unfold GetRandomHeader. unfold gbind at 1. unfold draw at 1.
  pose proof (Int63_range r) as Hh. destruct (Int63 r) as [height r1].
  cbn [fst snd] in *. unfold gbind at 1. unfold draw at 1.
  destruct (UnixNano r1) as [now r2]. cbn [fst].
  repeat match goal with
  | |- context [gbind (GetRandomBytes 32) _ ?r0] =>
      let bs := fresh "bs" in
      let r' := fresh "r" in
      let Heq := fresh "Heq" in
      let Hlen := fresh "Hlen" in
      destruct (GetRandomBytes_length 32 r0 ltac:(lia)) as [bs [r' [Heq Hlen]]];
      unfold gbind at 1; rewrite Heq
  end.
  eexists _, _. split; [reflexivity|]. cbn.
  split; [unfold Header.Height; cbn; unfold wrap64, uint64_modulus;
          apply Z.mod_small; unfold int64_modulus_half in Hh; lia|].
  split; [reflexivity|]. split; [reflexivity|].
  split; [destruct InitStateVersion; reflexivity|].
  split; [|reflexivity].
  repeat constructor; assumption.
Qed.

(** X25. Whatever the random source and the clock return,
    [GetRandomHeader] returns a header that passes [ValidateBasic]: its
    height is below 2^63, its eight digests and its proposer address are
    32 bytes long, [NextAggregatorsHash] is empty, and [Time] gives back
    the clock reading it was made from. *)
Theorem GetRandomHeader_valid (r : R) :
  exists h r',
    GetRandomHeader InitStateVersion r = (Ret h, r') /\
    Header.ValidateBasic h = None /\
    0 <= Header.Height h < int64_modulus_half /\
    Forall (fun x => length x = 32%nat)
      [Header.LastHeaderHash h; Header.LastCommitHash h; Header.DataHash h;
       Header.ConsensusHash h; Header.AppHash h; Header.LastResultsHash h;
       Header.ProposerAddress h; Header.AggregatorsHash h] /\
    Header.NextAggregatorsHash h = [] /\
    Header.Time h = fst (UnixNano (snd (Int63 r))).
Proof.
  destruct (GetRandomHeader_fields r)
    as [h [r' [Heq [Hh [Ht [_ [_ [Hlen Hnext]]]]]]]].
  exists h, r'. split; [exact Heq|].
  split.
  - unfold Header.ValidateBasic.
    assert (Hp : length (Header.ProposerAddress h) = 32%nat).
    { apply (proj1 (List.Forall_forall _ _) Hlen). cbn. tauto. }
    rewrite Hp. reflexivity.
  - split; [rewrite Hh; apply Int63_range|].
    split; [exact Hlen|]. split; [exact Hnext|].
    unfold Header.Time. rewrite Ht. apply toInt64_wrap64. apply UnixNano_range.
Qed.

Lemma fillData_shape (n : nat) :
  forall r : R,
  exists txs roots r',
    fillData n r = (Ret (txs, roots), r') /\
    length txs = n /\ length roots = n /\
    Forall (fun tx => (100 <= length tx < 200)%nat) txs /\
    Forall (fun root => length root = 32%nat) roots.
Proof.
  induction n as [|n IH]; intros r; cbn [fillData].
  - exists [], [], r. repeat split; constructor.
  - destruct (GetRandomTx_length r) as [tx [r1 [Htx Hlen]]].
    unfold gbind at 1. rewrite Htx.
    destruct (GetRandomBytes_length 32 r1 ltac:(lia)) as [root [r2 [Hroot Hl32]]].
    unfold gbind at 1. rewrite Hroot.
    destruct (IH r2) as [txs [roots [r3 [Hrest [Hn1 [Hn2 [Ht Hr]]]]]]].
    unfold gbind at 1. rewrite Hrest. unfold gret. cbn [fst snd].
    exists (tx :: txs), (root :: roots), r3.
    split; [reflexivity|]. cbn [length]. repeat split; try congruence.
    + constructor; assumption.
    + constructor; assumption.
Qed.

(** X26. [GetRandomBlock] panics when [nTxs] is negative or so large
    that the runtime refuses its slices (more than [maxAlloc] bytes of
    slice headers). Otherwise it returns a block at the given height with
    [nTxs] transactions of 100 to 199 bytes, as many state roots of 32
    bytes, a header that passes [ValidateBasic], an empty commit and no
    validator set. *)
Theorem GetRandomBlock_shape (height nTxs : Z) (r : R) :
  (nTxs < 0 \/ maxAlloc < sliceHeaderSize * nTxs ->
   exists r', GetRandomBlock PUB InitStateVersion height nTxs r =
                (Panicked "makeslice: len out of range", r')) /\
  (0 <= nTxs -> sliceHeaderSize * nTxs <= maxAlloc ->
   exists b r',
     GetRandomBlock PUB InitStateVersion height nTxs r = (Ret b, r') /\
     Header.Height (SH_Header (B_SignedHeader b)) = height /\
     length (Data.Txs (B_Data b)) = Z.to_nat nTxs /\
     length (Data.IntermediateStateRoots (B_Data b)) = Z.to_nat nTxs /\
     Forall (fun tx => (100 <= length tx < 200)%nat) (Data.Txs (B_Data b)) /\
     Forall (fun root => length root = 32%nat)
            (Data.IntermediateStateRoots (B_Data b)) /\
     Header.ValidateBasic (SH_Header (B_SignedHeader b)) = None /\
     Commit.Signatures (SH_Commit (B_SignedHeader b)) = [] /\
     SH_Validators (B_SignedHeader b) = None).
Proof.
  destruct (GetRandomHeader_fields r)
    as [h [r1 [Hh [_ [_ [_ [_ [Hlen _]]]]]]]].
  assert (Hp : length (Header.ProposerAddress h) = 32%nat).
  { apply (proj1 (List.Forall_forall _ _) Hlen). cbn. tauto. }
  unfold GetRandomBlock. split.
  - intros Hrefused. unfold gbind at 1. rewrite Hh.
    apply makeslice_panics_spec in Hrefused. rewrite Hrefused.
    eexists. reflexivity.
  - intros Hnn Hsize. unfold gbind at 1. rewrite Hh.
    rewrite (makeslice_granted _ _ Hnn Hsize).
    destruct (GetRandomBytes_length 32 r1 ltac:(lia)) as [app [r2 [Happ _]]].
    unfold gbind at 1. rewrite Happ.
    destruct (fillData_shape (Z.to_nat nTxs) r2)
      as [txs [roots [r3 [Hfill [Hn1 [Hn2 [Ht Hr]]]]]]].
    unfold gbind at 1. rewrite Hfill. unfold gret. cbn [fst snd].
    eexists _, _. split; [reflexivity|]. cbn.
    repeat split; try assumption.
    unfold Header.ValidateBasic. cbn. rewrite Hp. reflexivity.
Qed.

(** The header [GetRandomNextHeader] returns. *)
Lemma GetRandomNextHeader_fields (header : Header.t) (r : R) :
  exists next r',
    GetRandomNextHeader InitStateVersion header r = (Ret next, r') /\
    Header.Height next = wrap64 (Header.Height header + 1) /\
    Header.LastHeaderHash next = Hash header /\
    Header.ProposerAddress next = Header.ProposerAddress header /\
    Header.AggregatorsHash next = Header.AggregatorsHash header /\
    Header.NextAggregatorsHash next = Header.NextAggregatorsHash header.
Proof.
  destruct (GetRandomHeader_fields r) as [h [r1 [Hh _]]].
  unfold GetRandomNextHeader. unfold gbind at 1. rewrite Hh.
  unfold gbind, draw. destruct (UnixNano r1) as [now r2]. unfold gret.
  eexists _, _. split; [reflexivity|]. repeat split.
Qed.

(** [Verify] on a header whose height is the next one. *)
Lemma Verify_next (h next : Header.t) :
  Header.Height next = wrap64 (Header.Height h + 1) ->
  Header.Verify h next =
    if bytes_Equal (Header.AggregatorsHash next) (Header.NextAggregatorsHash h)
    then None
    else Some (VerifyError
                 (Errorf "expected old header validators (%X) to match those from new header (%X)"
                         [ArgX (Header.NextAggregatorsHash h);
                          ArgX (Header.AggregatorsHash next)])).
Proof.
  intros Hn. unfold Header.Verify. rewrite Hn, Z.eqb_refl.
  destruct (bytes_Equal _ _); reflexivity.
Qed.

(** X27. [GetRandomNextHeader] returns a header one height above the
    given one that links to it by hash and copies its proposer address and
    both aggregator hashes; the given header verifies it exactly when its
    own two aggregator hashes agree. *)
Theorem GetRandomNextHeader_links (header : Header.t) (r : R) :
  exists next r',
    GetRandomNextHeader InitStateVersion header r = (Ret next, r') /\
    Header.Height next = wrap64 (Header.Height header + 1) /\
    Header.LastHeaderHash next = Hash header /\
    Header.ProposerAddress next = Header.ProposerAddress header /\
    Header.AggregatorsHash next = Header.AggregatorsHash header /\
    Header.NextAggregatorsHash next = Header.NextAggregatorsHash header /\
    (Header.Verify header next = None <->
     Header.AggregatorsHash header = Header.NextAggregatorsHash header).
Proof.
  destruct (GetRandomNextHeader_fields header r)
    as [next [r' [Heq [Hh [Hl [Hp [Ha Hn]]]]]]].
  exists next, r'. repeat (split; [assumption|]).
  rewrite (Verify_next header next Hh), Ha.
  destruct (bytes_Equal _ _) eqn:Hb.
  - apply bytes_Equal_eq in Hb. tauto.
  - apply bytes_Equal_neq in Hb. split; [discriminate | contradiction].
Qed.

(** X28. A header from [GetRandomHeader] never verifies the header
    [GetRandomNextHeader] derives from it: the next header copies a
    32-byte aggregator hash while the first one has an empty next
    aggregator hash. *)
Theorem random_next_header_fails_Verify (r : R) :
  exists h r1 next r2 reason,
    GetRandomHeader InitStateVersion r = (Ret h, r1) /\
    GetRandomNextHeader InitStateVersion h r1 = (Ret next, r2) /\
    Header.Verify h next = Some (VerifyError reason).
Proof.
  destruct (GetRandomHeader_fields r)
    as [h [r1 [Hh [_ [_ [_ [_ [Hlen Hnext]]]]]]]].
  destruct (GetRandomNextHeader_fields h r1)
    as [next [r2 [Heq [Hn [_ [_ [Ha _]]]]]]].
  exists h, r1, next, r2.
  exists (Errorf "expected old header validators (%X) to match those from new header (%X)"
                 [ArgX (Header.NextAggregatorsHash h);
                  ArgX (Header.AggregatorsHash next)]).
  split; [exact Hh|]. split; [exact Heq|].
  rewrite (Verify_next h next Hn).
  assert (Hp : length (Header.AggregatorsHash h) = 32%nat).
  { apply (proj1 (List.Forall_forall _ _) Hlen). cbn. tauto. }
  assert (Hb : bytes_Equal (Header.AggregatorsHash next)
                           (Header.NextAggregatorsHash h) = false).
  { apply bytes_Equal_neq. rewrite Ha, Hnext. intros Hnil.
    rewrite Hnil in Hp. discriminate Hp. }
  rewrite Hb. reflexivity.
Qed.

Lemma getCommit_result (header : Header.t) (privKey : PK) (r : R)
    (commit : Commit.t) (r' : R) :
  getCommit header privKey r = (Ret commit, r') ->
  r' = r /\
  exists headerBytes sign,
    MarshalBinary header = inl headerBytes /\
    SignWith privKey headerBytes = inl sign /\
    commit = Commit.mk 0 [] [sign].
Proof.
  unfold getCommit.
  destruct (MarshalBinary header) as [hb|e] eqn:Hm; [|discriminate].
  destruct (SignWith privKey hb) as [sg|e] eqn:Hs; [|discriminate].
  unfold gret. intros Heq. injection Heq as <- <-.
  split; [reflexivity|]. exists hb, sg. repeat split; assumption.
Qed.

(** X29. When [GetRandomSignedHeader] returns, the header's proposer
    address is the address of the generated key, both aggregator hashes
    are the hash of the one-validator set returned with it, and the commit
    holds exactly one signature, made with that key over the header's
    encoding. *)
Theorem GetRandomSignedHeader_fields (r : R) (sh : SignedHeader PUB)
    (privKey : PK) (r' : R) :
  GetRandomSignedHeader InitStateVersion r = (Ret (sh, privKey), r') ->
  exists valSet headerBytes sign,
    SH_Validators sh = Some valSet /\
    Validators valSet = [Proposer valSet] /\
    Address (Proposer valSet) = AddressOf (PubKeyOf privKey) /\
    Header.ProposerAddress (SH_Header sh) = AddressOf (PubKeyOf privKey) /\
    Header.AggregatorsHash (SH_Header sh) = ValidatorSetHash valSet /\
    Header.NextAggregatorsHash (SH_Header sh) = ValidatorSetHash valSet /\
    MarshalBinary (SH_Header sh) = inl headerBytes /\
    SignWith privKey headerBytes = inl sign /\
    Commit.Signatures (SH_Commit sh) = [sign].
Proof.
  unfold GetRandomSignedHeader, GetRandomValidatorSetWithPrivKey.
  unfold gbind at 1. unfold gbind at 1. unfold draw at 1.
  destruct (GenPrivKey r) as [pk r1]. unfold gret at 1. cbn [fst snd].
  destruct (GetRandomHeader_fields r1) as [h [r2 [Hh _]]].
  unfold gbind at 1. rewrite Hh. unfold gbind.
  destruct (getCommit _ pk r2) as [[c|e|msg] r3] eqn:Hc; try discriminate.
  unfold gret. intros Heq. injection Heq as <- <- <-.
  destruct (getCommit_result _ _ _ _ _ Hc) as [_ [hb [sg [Hm [Hs ->]]]]].
  eexists _, hb, sg. cbn. repeat split; assumption.
Qed.

(** X30. When [GetRandomNextSignedHeader] returns on a signed header whose
    two aggregator hashes agree, the header it returns is verified by the
    given one, has agreeing aggregator hashes again, keeps the validator
    set, and carries one signature by the given key: chains built with it
    verify link by link. *)
Theorem GetRandomNextSignedHeader_verifies (sh next : SignedHeader PUB)
    (privKey : PK) (r r' : R) :
  Header.AggregatorsHash (SH_Header sh) =
    Header.NextAggregatorsHash (SH_Header sh) ->
  GetRandomNextSignedHeader InitStateVersion sh privKey r = (Ret next, r') ->
  Header.Verify (SH_Header sh) (SH_Header next) = None /\
  Header.Height (SH_Header next) = wrap64 (Header.Height (SH_Header sh) + 1) /\
  Header.AggregatorsHash (SH_Header next) =
    Header.NextAggregatorsHash (SH_Header next) /\
  SH_Validators next = SH_Validators sh /\
  exists headerBytes sign,
    MarshalBinary (SH_Header next) = inl headerBytes /\
    SignWith privKey headerBytes = inl sign /\
    Commit.Signatures (SH_Commit next) = [sign].
Proof.
  intros Hlinked. unfold GetRandomNextSignedHeader.
  destruct (GetRandomNextHeader_fields (SH_Header sh) r)
    as [h [r1 [Hh [Hn [_ [_ [Ha Hna]]]]]]].
  unfold gbind at 1. rewrite Hh. unfold gbind.
  destruct (getCommit _ privKey r1) as [[c|e|msg] r2] eqn:Hc; try discriminate.
  unfold gret. intros Heq. injection Heq as <- <-.
  destruct (getCommit_result _ _ _ _ _ Hc) as [_ [hb [sg [Hm [Hs ->]]]]].
  cbn. split.
  - erewrite Verify_next by exact Hn. cbn. rewrite Ha, Hlinked.
    assert (Hb : bytes_Equal (Header.NextAggregatorsHash (SH_Header sh))
                             (Header.NextAggregatorsHash (SH_Header sh)) = true)
      by (apply bytes_Equal_eq; reflexivity).
    rewrite Hb. reflexivity.
  - split; [exact Hn|]. split; [congruence|]. split; [reflexivity|].
    exists hb, sg. repeat split; assumption.
Qed.

End TestHelpers.

(** ** The further properties at concrete managers *)

Import fixtures.

(** The first tick of a fresh proposer saves the block it created, with a
    one-signature commit for height 1. *)
Lemma publishBlock_saves_created_block_witness :
  (exists lastCommit,
     In (EvCreateBlock (newHeightOf (fresh 10 [] [])) lastCommit
                       (lastState (fresh 10 [] [])))
        (snd (publishBlock (fresh 10 [] []))) /\
     first_block =
       fst (state.CreateBlock (executor (fresh 10 [] []))
              (newHeightOf (fresh 10 [] [])) lastCommit
              (lastState (fresh 10 [] [])))) /\
  Commit.Height (commitOf first_block ([Byte.x07] ++ proposer)) =
    Header.Height (Block.Header first_block) /\
  Commit.HeaderHash (commitOf first_block ([Byte.x07] ++ proposer)) =
    Hash (Block.Header first_block) /\
  length (Commit.Signatures (commitOf first_block ([Byte.x07] ++ proposer)))
    = 1%nat.
Proof.
  apply (publishBlock_saves_created_block _ _ _ _ (fresh 10 [] [])).
  vm_compute. auto 10.
Defined.

(** A proposer whose blocks the executor rejects: nothing is saved and the
    store stays empty. *)
Lemma publishBlock_without_save_witness :
  store (snd (fst (publishBlock anonymous))) = store anonymous /\
  lastState (snd (fst (publishBlock anonymous))) = lastState anonymous /\
  count isSubmitBlock (snd (publishBlock anonymous)) = 0%nat /\
  count isSend_HeaderOutCh (snd (publishBlock anonymous)) = 0%nat.
Proof.
  apply (publishBlock_without_save _ _ _ _ anonymous).
  vm_compute. reflexivity.
Defined.

(** A proposer at height 1 produces block 2 from the commit of height 1
    and announces its header. *)
Lemma publishBlock_steady_state_witness :
  outcome publishBlock running = Ret tt /\
  store.Height (store (after publishBlock running)) = 2 /\
  In (EvCreateBlock 2 (commit_at 1) state0) (trace publishBlock running) /\
  In (EvSend_HeaderOutCh (Block.Header second_block))
     (trace publishBlock running).
Proof.
  pose proof (publishBlock_steady_state _ _ _ _ running (commit_at 1)
    second_block (mem.mkExecutor proposer []) (mem.mkExecutor proposer [])
    (State.mk "test" 1 2 zero32 zero32 zero32 [] [] [])
    proposer ([Byte.x07] ++ proposer)
    (snd (mem.SaveBlock (store running) second_block
            (commitOf second_block ([Byte.x07] ++ proposer))))
    (snd (mem.UpdateState
            (snd (mem.SaveBlock (store running) second_block
                    (commitOf second_block ([Byte.x07] ++ proposer))))
            (State.mk "test" 1 2 zero32 zero32 zero32 [] [] [])))
    (da.mkSubmit da.StatusSuccess "") (mem.mkDA [] [])) as W.
  unfold outcome, after, trace.
  rewrite W; try (vm_compute; reflexivity); [|vm_compute; discriminate].
  cbn [fst snd]. split; [reflexivity|]. split; [vm_compute; reflexivity|].
  split; cbn; auto 12.
Defined.

(** A proposer whose store does not take the state: the tick fails after
    the save, with the last state already advanced to height 1. *)
Lemma publishBlock_UpdateState_failure_witness :
  fst (fst (publishBlock flaky)) = Fail ErrStateNotWritten /\
  State.LastBlockHeight (lastState (snd (fst (publishBlock flaky)))) = 1 /\
  store.Height (store (snd (fst (publishBlock flaky)))) = 1 /\
  count isSubmitBlock (snd (publishBlock flaky)) = 0%nat.
Proof.
  pose proof (publishBlock_UpdateState_failure _ _ _ _ flaky
    (Commit.mk 0 zero32 []) [] first_block
    (mem.mkExecutor proposer []) (mem.mkExecutor proposer [])
    (State.mk "test" 1 1 zero32 zero32 zero32 [] [] [])
    proposer ([Byte.x07] ++ proposer)
    (mkFlaky (snd (mem.SaveBlock (mem.mkStore ∅ ∅ None 0) first_block
                     (commitOf first_block ([Byte.x07] ++ proposer)))) true)
    (mkFlaky (snd (mem.SaveBlock (mem.mkStore ∅ ∅ None 0) first_block
                     (commitOf first_block ([Byte.x07] ++ proposer)))) true)
    ErrStateNotWritten) as W.
  rewrite W; try (vm_compute; reflexivity).
  cbn [fst snd]. split; [reflexivity|].
  split; [reflexivity|]. split; vm_compute; reflexivity.
Defined.

(** Two ticks, the second after a publication that took twice the block
    time: the timer is then set to 0, within the bounds. *)
Lemma AggregationLoop_timer_bounds_witness :
  0 <= 0 <= config.BlockTime (conf (fresh 10 [] [])).
Proof.
  apply (AggregationLoop_timer_bounds _ _ _ _
           [AggTimer 3; AggTimer (2000 * Millisecond)] (fresh 10 [] []) 0).
  - vm_compute. discriminate.
  - intros elapsed [Heq|[Heq|[]]]; injection Heq as <-; vm_compute; discriminate.
  - vm_compute. auto 40.
Defined.

(** Block 1 arrives at a follower that staged block 2: what is saved is
    block 1, with the last commit of block 2. *)
Lemma syncBlockIn_saves_from_window_witness :
  exists next post,
    syncCache (stage (block_at 1) staged2)
      !! wrap64 (store.Height (store staged2) + 1) = Some (block_at 1) /\
    syncCache (stage (block_at 1) staged2)
      !! wrap64 (store.Height (store staged2) + 2) = Some next /\
    commit_at 1 = Block.LastCommit next /\
    snd (syncBlockIn (block_at 1) staged2) =
      [EvLog "debug" "block body retrieved from DALC";
       EvApplyBlock (lastState staged2) (block_at 1);
       EvSaveBlock (block_at 1) (commit_at 1)] ++ post.
Proof.
  apply (syncBlockIn_saves_from_window _ _ _ _ staged2 (block_at 1)).
  vm_compute. auto 10.
Defined.

(** Block 1 arrives at a follower that staged blocks 2 and 3: block 2
    stays where it was. *)
Lemma syncBlockIn_keeps_other_heights_witness :
  syncCache (snd (fst (syncBlockIn (block_at 1) staged23))) !! 2 =
    syncCache (stage (block_at 1) staged23) !! 2.
Proof.
  apply (syncBlockIn_keeps_other_heights _ _ _ _ staged23 (block_at 1) 2).
  vm_compute. discriminate.
Defined.

(** A block without proposer address arrives at a follower that staged
    block 2: the executor rejects it and it stays staged. *)
Lemma syncBlockIn_ApplyBlock_failure_witness :
  fst (fst (syncBlockIn bad_block staged2)) = Ret tt /\
  store (snd (fst (syncBlockIn bad_block staged2))) = store staged2 /\
  lastState (snd (fst (syncBlockIn bad_block staged2))) = lastState staged2 /\
  syncCache (snd (fst (syncBlockIn bad_block staged2))) !! 1 = Some bad_block.
Proof.
  rewrite (syncBlockIn_ApplyBlock_failure _ _ _ _ staged2 bad_block bad_block
             (block_at 2) mem.ErrInvalidBlock (mem.mkExecutor proposer []));
    try (vm_compute; reflexivity).
  repeat split; vm_compute; reflexivity.
Defined.

(** Block 1 arrives where the store holds another block at height 1: the
    save is refused, the last state stays and block 1 stays staged. *)
Lemma syncBlockIn_SaveBlock_failure_witness :
  lastState (snd (fst (syncBlockIn (block_at 1) taken2))) = lastState taken2 /\
  syncCache (snd (fst (syncBlockIn (block_at 1) taken2))) !! 1 =
    Some (block_at 1) /\
  In (EvLog "error" "failed to save block")
     (snd (syncBlockIn (block_at 1) taken2)).
Proof.
  rewrite (syncBlockIn_SaveBlock_failure _ _ _ _ taken2 (block_at 1)
             (block_at 1) (block_at 2)
             (State.mk "test" 1 1 zero32 zero32 zero32 [] [] [])
             mem.ErrConflict (mem.mkExecutor proposer []) (store taken2));
    try (vm_compute; reflexivity).
  split; [vm_compute; reflexivity|]. split; [vm_compute; reflexivity|].
  cbn. auto 10.
Defined.

(** Block 2 arrives where blocks 1 and 2 are staged and the store does
    not take the state: block 1 is saved, the last state advances, and
    block 1 is still in the cache. *)
Lemma syncBlockIn_UpdateState_failure_witness :
  State.LastBlockHeight (lastState (snd (fst (syncBlockIn (block_at 2) flaky12))))
    = 1 /\
  store.Height (store (snd (fst (syncBlockIn (block_at 2) flaky12)))) = 1 /\
  syncCache (snd (fst (syncBlockIn (block_at 2) flaky12))) !! 1 =
    Some (block_at 1).
Proof.
  destruct (syncBlockIn_UpdateState_failure _ _ _ _ flaky12 (block_at 2)
              (block_at 1) (block_at 2)
              (State.mk "test" 1 1 zero32 zero32 zero32 [] [] [])
              ErrStateNotWritten (mem.mkExecutor proposer [])
              (mkFlaky (snd (mem.SaveBlock (mem.mkStore ∅ ∅ None 0)
                               (block_at 1) (commit_at 1))) true)
              (mkFlaky (snd (mem.SaveBlock (mem.mkStore ∅ ∅ None 0)
                               (block_at 1) (commit_at 1))) true))
    as [Hrun Hkept]; try (vm_compute; reflexivity).
  rewrite Hrun. cbn [fst snd].
  repeat split; vm_compute; reflexivity.
Defined.

(** The first block at a fresh follower. *)
Lemma syncBlockIn_first_block_waits_witness :
  syncBlockIn (block_at 1) (fresh 10 [] []) =
    (Ret tt, stage (block_at 1) (fresh 10 [] []),
     [EvLog "debug" "block body retrieved from DALC"]).
Proof.
  apply (syncBlockIn_first_block_waits _ _ _ _ (fresh 10 [] []) (block_at 1)).
  reflexivity.
Defined.

(** Blocks 1 and 2 arrive in order at a fresh follower: block 1 is saved
    and block 2 is what stays staged. *)
Lemma SyncLoop_two_blocks_in_order_witness :
  store.Height
    (store (after (SyncLoop [SyncBlockIn (block_at 1); SyncBlockIn (block_at 2)])
                  (fresh 10 [] []))) = 1 /\
  syncCache (after (SyncLoop [SyncBlockIn (block_at 1); SyncBlockIn (block_at 2)])
                   (fresh 10 [] [])) = {[2 := block_at 2]}.
Proof.
  unfold after.
  rewrite (SyncLoop_two_blocks_in_order _ _ _ _ (fresh 10 [] [])
             (block_at 1) (block_at 2)
             (State.mk "test" 1 1 zero32 zero32 zero32 [] [] [])
             (mem.mkExecutor proposer [])
             (snd (mem.SaveBlock (mem.mkStore ∅ ∅ None 0)
                     (block_at 1) (commit_at 1)))
             (snd (mem.UpdateState
                     (snd (mem.SaveBlock (mem.mkStore ∅ ∅ None 0)
                             (block_at 1) (commit_at 1)))
                     (State.mk "test" 1 1 zero32 zero32 zero32 [] [] []))));
    try (vm_compute; reflexivity).
  split; vm_compute; reflexivity.
Defined.

(** Headers 10, 3 and then 5 at a fresh follower: the target ends at 5. *)
Lemma SyncLoop_last_header_sets_target_witness :
  syncTarget
    (snd (fst (SyncLoop
                 (map SyncHeaderIn [header_at 10 [] []; header_at 3 [] []]
                  ++ [SyncHeaderIn (header_at 5 [] [])])
                 (fresh 10 [] [])))) = 5.
Proof.
  rewrite (SyncLoop_last_header_sets_target _ _ _ _
             [header_at 10 [] []; header_at 3 [] []] (header_at 5 [] [])
             (fresh 10 [] [])).
  - reflexivity.
  - vm_compute. reflexivity.
Defined.

(** Fetching heights 1 to 3: height 2 is asked for, within the range. *)
Lemma retrieveUpTo_requests_in_range_witness :
  In (EvRetrieveBlock 2) (snd (retrieveUpTo 5 1 3 fetching)) /\ 1 <= 2 <= 3.
Proof.
  assert (Hin : In (EvRetrieveBlock 2) (snd (retrieveUpTo 5 1 3 fetching)))
    by (vm_compute; auto 20).
  split; [exact Hin|].
  apply (retrieveUpTo_requests_in_range _ _ _ _ 5 1 3 fetching 2);
    [lia | vm_compute; reflexivity | exact Hin].
Defined.

(** Fetching heights 1 to 3 from a DA client that has them: the loop ends
    with three blocks sent. *)
Lemma retrieveUpTo_completes_witness :
  match fst (fst (retrieveUpTo 5 1 3 fetching)) with
  | Ret ForDone =>
      count isSend_blockInCh (snd (retrieveUpTo 5 1 3 fetching)) =
        Z.to_nat (3 - 1 + 1)
  | Ret ForRunning => False
  | Fail _ => False
  | Panicked _ =>
      (count isSend_blockInCh (snd (retrieveUpTo 5 1 3 fetching)) <
         Z.to_nat (3 - 1 + 1))%nat
  end.
Proof.
  apply (retrieveUpTo_completes _ _ _ _ 5 1 3 fetching);
    [lia | lia | vm_compute; reflexivity | vm_compute; lia].
Defined.

(** Header 7 is announced to a fresh follower whose DA client has no
    block: the retrieve loop panics at height 1. *)
Lemma announced_block_unavailable_panics_witness :
  fst (fst (retrieveSignal 3
              (snd (fst (syncHeaderIn (header_at 7 [] []) (fresh 10 [] []))))))
    = Panicked "failed to retrieve block with DALC".
Proof.
  apply (announced_block_unavailable_panics _ _ _ _
           (fresh 10 [] []) (header_at 7 [] []) 2).
  - vm_compute. reflexivity.
  - vm_compute. reflexivity.
  - intros i Hi.
    do 10 (destruct i as [|i]; [vm_compute; discriminate|]). lia.
Defined.

(** A signed header made from seed 0: one validator, one signature. *)
Lemma GetRandomSignedHeader_fields_witness :
  exists valSet headerBytes sign,
    testutil.SH_Validators (fst signed0) = Some valSet /\
    testutil.Validators valSet = [testutil.Proposer valSet] /\
    testutil.Address (testutil.Proposer valSet) =
      testutil.AddressOf (testutil.PubKeyOf (snd signed0)) /\
    Header.ProposerAddress (testutil.SH_Header (fst signed0)) =
      testutil.AddressOf (testutil.PubKeyOf (snd signed0)) /\
    Header.AggregatorsHash (testutil.SH_Header (fst signed0)) =
      testutil.ValidatorSetHash valSet /\
    Header.NextAggregatorsHash (testutil.SH_Header (fst signed0)) =
      testutil.ValidatorSetHash valSet /\
    MarshalBinary (testutil.SH_Header (fst signed0)) = inl headerBytes /\
    testutil.SignWith (snd signed0) headerBytes = inl sign /\
    Commit.Signatures (testutil.SH_Commit (fst signed0)) = [sign].
Proof.
  apply (GetRandomSignedHeader_fields Seed bytes bytes version0 0
           (fst signed0) (snd signed0)
           (snd (testutil.GetRandomSignedHeader version0 0))).
  vm_compute. reflexivity.
Defined.

(** The next signed header after it verifies against it. *)
Lemma GetRandomNextSignedHeader_verifies_witness :
  Header.Verify (testutil.SH_Header (fst signed0))
                (testutil.SH_Header signed1) = None /\
  Header.Height (testutil.SH_Header signed1) =
    wrap64 (Header.Height (testutil.SH_Header (fst signed0)) + 1) /\
  Header.AggregatorsHash (testutil.SH_Header signed1) =
    Header.NextAggregatorsHash (testutil.SH_Header signed1) /\
  testutil.SH_Validators signed1 = testutil.SH_Validators (fst signed0) /\
  exists headerBytes sign,
    MarshalBinary (testutil.SH_Header signed1) = inl headerBytes /\
    testutil.SignWith (snd signed0) headerBytes = inl sign /\
    Commit.Signatures (testutil.SH_Commit signed1) = [sign].
Proof.
  apply (GetRandomNextSignedHeader_verifies Seed bytes bytes version0
           (fst signed0) signed1 (snd signed0) 100
           (snd (testutil.GetRandomNextSignedHeader version0 (fst signed0)
                   (snd signed0) 100))).
  - vm_compute. reflexivity.
  - vm_compute. reflexivity.
Defined.

(** On an empty store the manager starts from the genesis state and is
    idle: a retrieve signal asks for nothing and block 1 is only staged.
    With a client that cannot retrieve, [NewManager] panics. *)
Lemma NewManager_result_witness :
  NewManager [Byte.x07] (conf_with 10) (tmtypes.mk "test" 1)
             (mem.mkStore ∅ ∅ None 0) [] tt
             (wiring.RetrievingClient (D' := SubmitOnly) (mem.mkDA [] []))
    = Ret newborn /\
  retrieveSignal 1 newborn = (Ret ForDone, newborn, []) /\
  syncBlockIn (block_at 1) newborn =
    (Ret tt, stage (block_at 1) newborn,
     [EvLog "debug" "block body retrieved from DALC"]) /\
  wiring.asBlockRetriever
    (wiring.SubmittingClient (D := mem.DA) (mkSubmitOnly [])) = None.
Proof.
  pose proof (NewManager_result mem.Store mem.Executor mem.DA SubmitOnly bytes
                (list bytes) unit [Byte.x07] (conf_with 10)
                (tmtypes.mk "test" 1) (mem.mkStore ∅ ∅ None 0) [] tt
                (wiring.RetrievingClient (mem.mkDA [] []))) as Wret.
  pose proof (NewManager_result mem.Store mem.Executor mem.DA SubmitOnly bytes
                (list bytes) unit [Byte.x07] (conf_with 10)
                (tmtypes.mk "test" 1) (mem.mkStore ∅ ∅ None 0) [] tt
                (wiring.SubmittingClient (mkSubmitOnly []))) as Wpanic.
  change (NewManager _ _ _ _ _ _ (wiring.RetrievingClient _))
    with (Ret (A := Mgr) newborn) in Wret.
  change (NewManager _ _ _ _ _ _ (wiring.SubmittingClient _))
    with (Panicked (A := Mgr) "interface conversion: not da.BlockRetriever")
    in Wpanic.
  destruct Wret as (_ & _ & _ & _ & Hsync & Hidle).
  destruct Wpanic as (_ & _ & Hnone).
  split; [reflexivity|].
  split; [apply (Hidle ltac:(vm_compute; reflexivity) 0%nat)|].
  split; [apply Hsync | exact Hnone].
Defined.

(** Two transactions at height 7; a length the runtime refuses. *)
Lemma GetRandomBlock_shape_witness :
  (exists r',
     testutil.GetRandomBlock bytes version0 7 (2 ^ 62) 0 =
       (Panicked "makeslice: len out of range", r')) /\
  (exists b r',
     testutil.GetRandomBlock bytes version0 7 2 0 = (Ret b, r') /\
     Header.Height (testutil.SH_Header (testutil.B_SignedHeader b)) = 7 /\
     length (Data.Txs (testutil.B_Data b)) = 2%nat).
Proof.
  split.
  - apply (GetRandomBlock_shape Seed bytes version0 7 (2 ^ 62) 0).
    right. vm_compute. reflexivity.
  - destruct (GetRandomBlock_shape Seed bytes version0 7 2 0) as [_ W].
    destruct W as (b & r' & Hrun & Hh & Hn & _);
      [lia | vm_compute; discriminate |].
    exists b, r'. split; [exact Hrun|]. split; [exact Hh | exact Hn].
Defined.
